(** * fastapi-filter: schema-driven query filtering

    A shallow embedding of [base.py] and [schema.py].  Python strings are
    [string], Python integers are [Z], dictionaries are insertion-ordered
    association lists (iteration order decides which error a request
    reports first), exceptions are an explicit [result] type. *)

From Stdlib Require Import String Ascii List ListDec ZArith Bool Lia.
Import ListNotations.
Open Scope string_scope.
Open Scope list_scope.

Set Implicit Arguments.

(** ** Python strings *)

Module PyStr.

(** [s.split(sep)] for a non-empty separator: occurrences are found from the
    left and do not overlap.  [skip] counts the characters of a separator
    that was just recognised and still have to be dropped. *)
Fixpoint split_from (sep : string) (skip : nat) (acc : string) (s : string)
  : list string :=
  match s with
  | EmptyString => [acc]
  | String c rest =>
      match skip with
      | S k => split_from sep k acc rest
      | O =>
          if String.prefix sep s
          then acc :: split_from sep (String.length sep - 1) EmptyString rest
          else split_from sep O (acc ++ String c EmptyString)%string rest
      end
  end.

Definition split (sep s : string) : list string :=
  split_from sep 0 EmptyString s.

(** [sep.join(parts)] *)
Fixpoint join (sep : string) (parts : list string) : string :=
  match parts with
  | [] => EmptyString
  | [x] => x
  | x :: rest => (x ++ sep ++ join sep rest)%string
  end.

(** Python truthiness of a string: [not s] holds for the empty string. *)
Definition truthy (s : string) : bool :=
  match s with
  | EmptyString => false
  | String _ _ => true
  end.

End PyStr.

(** ** Python dictionaries (insertion ordered) *)

Module PyDict.

Section Dict.
Variable V : Type.

Definition t := list (string * V).

Fixpoint get (k : string) (d : t) : option V :=
  match d with
  | [] => None
  | (k', v) :: rest => if String.eqb k k' then Some v else get k rest
  end.

Definition mem (k : string) (d : t) : bool :=
  match get k d with
  | Some _ => true
  | None => false
  end.

(** [d[k] = v]: an existing key keeps its position and takes the new value,
    a new key goes to the end. *)
Fixpoint set (k : string) (v : V) (d : t) : t :=
  match d with
  | [] => [(k, v)]
  | (k', v') :: rest =>
      if String.eqb k k' then (k', v) :: rest else (k', v') :: set k v rest
  end.

(** [{k: v for k, v in pairs}] *)
Definition of_pairs (pairs : list (string * V)) : t :=
  fold_left (fun d kv => set (fst kv) (snd kv) d) pairs [].

Definition keys (d : t) : list string := map fst d.

End Dict.

End PyDict.

(** ** The request: starlette's [QueryParams]

    [QueryParams] is an immutable multi-dict: it keeps the raw pairs of the
    query string and a dictionary built from them, and [items()], [get] and
    the mapping protocol ([**query_params]) all read the dictionary. *)

Module QueryParams.

Definition t := list (string * string).

Definition _dict (q : t) : PyDict.t string := PyDict.of_pairs q.

Definition items (q : t) : list (string * string) := _dict q.

Definition get (k : string) (q : t) : option string := PyDict.get k (_dict q).

End QueryParams.

(** ** Errors *)

Inductive loc_item : Type :=
| LocName (name : string)
| LocIndex (i : nat).

(** One line of a pydantic [ValidationError] ([e.errors()]). *)
Record ErrorDetails : Type := mkErrorDetails {
  err_type : string;
  err_loc : list loc_item
}.

(** What [get_exception] is called with: a formatted message, or the decoded
    lines of a pydantic error. *)
Inductive error_entry : Type :=
| Message (s : string)
| Details (e : ErrorDetails).

Inductive exn : Type :=
| RequestValidationError (errors : list error_entry)
| AttributeError (name : string)
| IndexError
| ArgumentError.

Inductive result (A : Type) : Type :=
| Ok (a : A)
| Raise (e : exn).

Arguments Ok {A} a.
Arguments Raise {A} e.

Definition bind {A B : Type} (r : result A) (k : A -> result B) : result B :=
  match r with
  | Ok a => k a
  | Raise e => Raise e
  end.

Notation "x <- r ;; k" := (bind r (fun x => k))
  (at level 61, r at next level, right associativity).

(** ** schema.py: data *)

Record LookupInfo : Type := mkLookupInfo {
  field_name : string;
  lookup : string;
  value : string
}.

Record FilterFieldInfo (annotation : Type) : Type := mkFilterFieldInfo {
  annotation_of : option annotation;
  orderable : bool;
  searchable : bool
}.

(** [FilterField(orderable=True, searchable=True)] attached to a field
    declared with type [a]. *)
Definition FilterField {annotation : Type} (a : annotation)
  (orderable searchable : bool) : FilterFieldInfo annotation :=
  mkFilterFieldInfo (Some a) orderable searchable.

(** A validated value: [None] for a field the request did not mention, a
    scalar of the declared type, or a list of them. *)
Inductive pyvalue (scalar : Type) : Type :=
| PyNone
| PyScalar (x : scalar)
| PyList (xs : list scalar).

Arguments PyNone {scalar}.
Arguments PyScalar {scalar} x.
Arguments PyList {scalar} xs.

(** ** base.py: data *)

Definition ORM_LOOKUP_MAPPING : PyDict.t string :=
  [ ("neq", "__ne__");
    ("gt", "__gt__");
    ("gte", "__ge__");
    ("lt", "__lt__");
    ("lte", "__le__");
    ("in", "in_");
    ("not_in", "not_in");
    ("regexp", "regexp_match") ].

Record BasePaginator (row : Type) : Type := mkBasePaginator {
  page : Z;
  per_page : Z;
  results : list row
}.

(** The query under construction, as far as [BaseFilter] amends it. *)
Inductive direction : Type := asc | desc.

Inductive order_clause : Type :=
| OrderColumn (column : string) (dir : direction)
| OrderText (label : string) (dir : direction).

Record predicate (scalar : Type) : Type := mkPredicate {
  pred_column : string;
  pred_method : string;
  pred_arg : pyvalue scalar
}.

(** The ranking subquery of [search]: the concatenated columns and the
    search string. *)
Record ranking : Type := mkRanking {
  rank_columns : list string;
  rank_query : string
}.

Record Select (scalar : Type) : Type := mkSelect {
  whereclause : list (predicate scalar);
  joins : list ranking;
  order_by_clauses : list order_clause;
  offset_clause : option Z;
  limit_clause : option Z
}.

(** [select(self.orm_model)] *)
Definition select {scalar : Type} : Select scalar :=
  mkSelect [] [] [] None None.

(** The class attributes of a [BaseFilter] subclass.  [orm_model] is the
    list of the attributes of the ORM class; [paginator_class] is
    [BasePaginator] itself. *)
Record FilterClass (annotation : Type) : Type := mkFilterClass {
  orm_model : list string;
  schema : PyDict.t (FilterFieldInfo annotation);
  ordering_param : string;
  search_param : string;
  default_ordering : string
}.

Record BaseFilter (annotation scalar row : Type) : Type := mkBaseFilter {
  cls : FilterClass annotation;
  request : QueryParams.t;
  _query : Select scalar;
  paginator : BasePaginator row
}.

(** ** A concrete resource used by the examples

    Declared types are supplied by the caller and coerced by pydantic; the
    development is parametric in both.  The examples use two declared types.
    [parse_int] reads an optionally signed run of decimal digits, which is
    all the examples feed to an integer field. *)

Inductive demo_type : Type := TInt | TStr.

Inductive demo_value : Type :=
| VInt (z : Z)
| VStr (s : string).

Definition digit_of (c : ascii) : option Z :=
  let n := nat_of_ascii c in
  if andb (48 <=? n)%nat (n <=? 57)%nat then Some (Z.of_nat (n - 48)) else None.

Fixpoint parse_digits (acc : Z) (s : string) : option Z :=
  match s with
  | EmptyString => Some acc
  | String c rest =>
      match digit_of c with
      | Some d => parse_digits (10 * acc + d) rest
      | None => None
      end
  end.

Definition parse_unsigned (s : string) : option Z :=
  match s with
  | EmptyString => None
  | String _ _ => parse_digits 0 s
  end.

Definition parse_int (s : string) : Z + string :=
  let parsed :=
    match s with
    | String "-"%char rest => option_map Z.opp (parse_unsigned rest)
    | String "+"%char rest => parse_unsigned rest
    | _ => parse_unsigned s
    end in
  match parsed with
  | Some z => inl z
  | None => inr "int_parsing"
  end.

Definition demo_coerce (t : demo_type) (s : string) : demo_value + string :=
  match t with
  | TInt =>
      match parse_int s with
      | inl z => inl (VInt z)
      | inr e => inr e
      end
  | TStr => inl (VStr s)
  end.

(** [Person{name: string, age: int}], both fields with the default flags. *)
Definition person_schema : PyDict.t (FilterFieldInfo demo_type) :=
  [ ("name", FilterField TStr true true);
    ("age", FilterField TInt true true) ].

Definition PersonFilter : FilterClass demo_type :=
  {| orm_model := ["id"; "name"; "age"];
     schema := person_schema;
     ordering_param := "order_by";
     search_param := "search";
     default_ordering := "id" |}.

(** The same resource with an [id] field in the schema and a [name] that
    may not be ordered by. *)
Definition account_schema : PyDict.t (FilterFieldInfo demo_type) :=
  [ ("id", FilterField TInt true false);
    ("name", FilterField TStr false true);
    ("age", FilterField TInt true false) ].

Definition AccountFilter : FilterClass demo_type :=
  {| orm_model := ["id"; "name"; "age"];
     schema := account_schema;
     ordering_param := "order_by";
     search_param := "search";
     default_ordering := "id" |}.

(** The entry of an aggregate error for a string that is not an integer. *)
Definition int_error (loc : list loc_item) : error_entry :=
  Details (mkErrorDetails "int_parsing" loc).

(** A compiler for a request, with the default pagination. *)
Definition compiler_for (klass : FilterClass demo_type) (request : QueryParams.t)
  : BaseFilter demo_type demo_value unit :=
  mkBaseFilter klass request select (mkBasePaginator 0 10 []).

Section Engine.

Set Default Proof Using "Type".

Variables annotation scalar row : Type.

(** pydantic's validation of one string against a declared type: the coerced
    value, or the type of the error it reports ([int_parsing], ...), one
    error for a rejected string. *)
Variable coerce : annotation -> string -> scalar + string.

(** pydantic's validation of a string against [int]. *)
Variable int_coerce : string -> Z + string.

(** ** schema.py: [BaseFilterSchema] *)

(** What a field validator does: return a value, raise [ValueError], or
    raise a [ValidationError] with its lines. *)
Inductive validator_outcome : Type :=
| Validated (v : pyvalue scalar)
| ValueError (msg : string)
| ValidationError (line_errors : list ErrorDetails).

(** [ValidationModel.model_validate({field: v})] for a field of the declared
    type: the location of an error starts with the field. *)
Definition validate_plain (field : string) (a : annotation) (v : string)
  : pyvalue scalar + list ErrorDetails :=
  match coerce a v with
  | inl x => inl (PyScalar x)
  | inr ety => inr [mkErrorDetails ety [LocName field]]
  end.

(** The same for [List[a]]: every item is validated, the errors of all of
    them are kept, each located at its index. *)
Fixpoint validate_items (field : string) (a : annotation) (i : nat)
  (tokens : list string) : list scalar * list ErrorDetails :=
  match tokens with
  | [] => ([], [])
  | tok :: rest =>
      let (xs, errs) := validate_items field a (S i) rest in
      match coerce a tok with
      | inl x => (x :: xs, errs)
      | inr ety => (xs, mkErrorDetails ety [LocName field; LocIndex i] :: errs)
      end
  end.

Definition validate_list (field : string) (a : annotation)
  (tokens : list string) : pyvalue scalar + list ErrorDetails :=
  match validate_items field a 0 tokens with
  | (xs, []) => inl (PyList xs)
  | (_, errs) => inr errs
  end.

Definition is_membership (lookup : option string) : bool :=
  match lookup with
  | Some l => orb (String.eqb l "in_") (String.eqb l "not_in")
  | None => false
  end.

(** [error['loc'] = error['loc'][1:]] *)
Definition drop_loc_head (e : ErrorDetails) : ErrorDetails :=
  mkErrorDetails (err_type e) (tl (err_loc e)).

(** The wildcard field validator.  [info] is [cls.model_fields[field]], the
    descriptor of the field under validation. *)
Definition name_must_contain_space (info : FilterFieldInfo annotation)
  (field : string) (v : string) (context : PyDict.t string)
  : validator_outcome :=
  match annotation_of info with
  | None => ValueError "Unknown field type"
  | Some InitialTypeAnnotation =>
      match context with
      | [] => ValueError "Context with lookups is required"
      | _ :: _ =>
          let lookup := PyDict.get field context in
          let validated :=
            if is_membership lookup
            then validate_list field InitialTypeAnnotation (PyStr.split "," v)
            else validate_plain field InitialTypeAnnotation v in
          match validated with
          | inl x => Validated x
          | inr errors => ValidationError (map drop_loc_head errors)
          end
      end
  end.

(** pydantic puts the field in front of the location of every line of an
    error raised by the validator of that field. *)
Definition with_outer_location (field : string) (e : ErrorDetails)
  : ErrorDetails :=
  mkErrorDetails (err_type e) (LocName field :: err_loc e).

(** [schema.model_validate(obj, context)]: the fields are validated in
    declaration order; a field absent from [obj] takes its default, the
    [None] of [FilterField]; a [ValueError] of the validator is one line of
    type [value_error]; the errors of all fields are collected. *)
Fixpoint validate_fields (fields : PyDict.t (FilterFieldInfo annotation))
  (obj : PyDict.t string) (context : PyDict.t string)
  : PyDict.t (pyvalue scalar) * list ErrorDetails :=
  match fields with
  | [] => ([], [])
  | (name, info) :: rest =>
      let (vals, errs) := validate_fields rest obj context in
      match PyDict.get name obj with
      | None => ((name, PyNone) :: vals, errs)
      | Some v =>
          match name_must_contain_space info name v context with
          | Validated x => ((name, x) :: vals, errs)
          | ValueError _ =>
              (vals, mkErrorDetails "value_error" [LocName name] :: errs)
          | ValidationError line_errors =>
              (vals, map (with_outer_location name) line_errors ++ errs)
          end
      end
  end.

Definition model_validate (fields : PyDict.t (FilterFieldInfo annotation))
  (obj : PyDict.t string) (context : PyDict.t string)
  : PyDict.t (pyvalue scalar) + list ErrorDetails :=
  match validate_fields fields obj context with
  | (vals, []) => inl vals
  | (_, errs) => inr errs
  end.

(** ** base.py: [BasePaginator] *)

(** One integer field of the paginator, [Field(default, ge, le)], read from
    the query dictionary. *)
Definition validate_int_field (name : string) (default : Z) (ge : Z)
  (le : option Z) (d : PyDict.t string) : Z + ErrorDetails :=
  match PyDict.get name d with
  | None => inl default
  | Some raw =>
      match int_coerce raw with
      | inr ety => inr (mkErrorDetails ety [LocName name])
      | inl n =>
          if (n <? ge)%Z
          then inr (mkErrorDetails "greater_than_equal" [LocName name])
          else
            match le with
            | Some hi =>
                if (hi <? n)%Z
                then inr (mkErrorDetails "less_than_equal" [LocName name])
                else inl n
            | None => inl n
            end
      end
  end.

Definition errors_of {A : Type} (r : A + ErrorDetails) : list ErrorDetails :=
  match r with
  | inl _ => []
  | inr e => [e]
  end.

(** [BasePaginator.model_validate({**query_params, 'results': []})]: both
    integer fields are validated and their errors collected; [results] is
    the empty list whatever the query says. *)
Definition BasePaginator_model_validate (d : PyDict.t string)
  : BasePaginator row + list ErrorDetails :=
  let p := validate_int_field "page" 0 0 None d in
  let pp := validate_int_field "per_page" 10 1 (Some 100%Z) d in
  match p, pp with
  | inl page, inl per_page => inl (mkBasePaginator page per_page [])
  | _, _ => inr (errors_of p ++ errors_of pp)
  end.

(** ** base.py: [BaseFilter] *)

Definition get_exception (errors : list error_entry) : exn :=
  RequestValidationError errors.

Definition __init__ (klass : FilterClass annotation) (request : QueryParams.t)
  : result (BaseFilter annotation scalar row) :=
  match BasePaginator_model_validate (QueryParams._dict request) with
  | inl paginator => Ok (mkBaseFilter klass request select paginator)
  | inr errors => Raise (get_exception (map Details errors))
  end.

Definition with_query (self : BaseFilter annotation scalar row)
  (q : Select scalar) : BaseFilter annotation scalar row :=
  mkBaseFilter (cls self) (request self) q (paginator self).

Definition inject_query (self : BaseFilter annotation scalar row)
  (query : Select scalar) : BaseFilter annotation scalar row :=
  with_query self query.

(** [getattr(self.orm_model, name)] *)
Definition getattr_orm (klass : FilterClass annotation) (name : string)
  : result string :=
  if existsb (String.eqb name) (orm_model klass)
  then Ok name
  else Raise (AttributeError name).

(** [getattr(validated_filter, name)] *)
Definition getattr_validated (validated : PyDict.t (pyvalue scalar))
  (name : string) : result (pyvalue scalar) :=
  match PyDict.get name validated with
  | Some v => Ok v
  | None => Raise (AttributeError name)
  end.

Definition reserved (klass : FilterClass annotation) (key : string) : bool :=
  existsb (String.eqb key)
    [ordering_param klass; search_param klass; "page"; "per_page"].

(** The body of the first loop of [filter] for one key that is not
    reserved. *)
Definition parse_key (klass : FilterClass annotation) (key value : string)
  : result LookupInfo :=
  fl <- match PyStr.split "__" key with
        | [field_name; query_lookup] =>
            match PyDict.get query_lookup ORM_LOOKUP_MAPPING with
            | Some lookup => Ok (field_name, lookup)
            | None =>
                Raise (get_exception
                  [Message ("Unknown lookup '" ++ query_lookup ++ "'")])
            end
        | _ => Ok (key, "__eq__")
        end ;;
  if PyDict.mem (fst fl) (schema klass)
  then Ok (mkLookupInfo (fst fl) (snd fl) value)
  else Raise (get_exception
         [Message ("Unknown filtering field '" ++ fst fl ++ "'")]).

Fixpoint collect_lookups (klass : FilterClass annotation)
  (items : list (string * string)) (lookups : list LookupInfo)
  : result (list LookupInfo) :=
  match items with
  | [] => Ok lookups
  | (key, value) :: rest =>
      if reserved klass key
      then collect_lookups klass rest lookups
      else
        l <- parse_key klass key value ;;
        collect_lookups klass rest (lookups ++ [l])
  end.

(** [self._query.filter(p)]: the predicate is AND-ed to the where clause. *)
Definition query_filter (q : Select scalar) (p : predicate scalar)
  : Select scalar :=
  mkSelect (whereclause q ++ [p]) (joins q) (order_by_clauses q)
    (offset_clause q) (limit_clause q).

Definition query_order_by (q : Select scalar) (c : order_clause)
  : Select scalar :=
  mkSelect (whereclause q) (joins q) (order_by_clauses q ++ [c])
    (offset_clause q) (limit_clause q).

Definition query_join (q : Select scalar) (r : ranking) : Select scalar :=
  mkSelect (whereclause q) (joins q ++ [r]) (order_by_clauses q)
    (offset_clause q) (limit_clause q).

Definition query_offset (q : Select scalar) (n : Z) : Select scalar :=
  mkSelect (whereclause q) (joins q) (order_by_clauses q)
    (Some n) (limit_clause q).

Definition query_limit (q : Select scalar) (n : Z) : Select scalar :=
  mkSelect (whereclause q) (joins q) (order_by_clauses q)
    (offset_clause q) (Some n).

(** [getattr(model_field, method)(arg)]: the column operators build the
    predicate; [in_] and [not_in] take a sequence and raise sqlalchemy's
    [ArgumentError] on anything else. *)
Definition column_method (model_field method : string) (arg : pyvalue scalar)
  : result (predicate scalar) :=
  if orb (String.eqb method "in_") (String.eqb method "not_in")
  then
    match arg with
    | PyList _ => Ok (mkPredicate model_field method arg)
    | _ => Raise ArgumentError
    end
  else Ok (mkPredicate model_field method arg).

(** The second loop of [filter]: one predicate per lookup. *)
Fixpoint apply_lookups (klass : FilterClass annotation)
  (validated_filter : PyDict.t (pyvalue scalar))
  (lookups : list LookupInfo) (q : Select scalar) : result (Select scalar) :=
  match lookups with
  | [] => Ok q
  | l :: rest =>
      model_field <- getattr_orm klass (field_name l) ;;
      arg <- getattr_validated validated_filter (field_name l) ;;
      p <- column_method model_field (lookup l) arg ;;
      apply_lookups klass validated_filter rest (query_filter q p)
  end.

Definition filter_obj (lookups : list LookupInfo) : PyDict.t string :=
  PyDict.of_pairs (map (fun l => (field_name l, value l)) lookups).

Definition filter_context (lookups : list LookupInfo) : PyDict.t string :=
  PyDict.of_pairs (map (fun l => (field_name l, lookup l)) lookups).

Definition filter (self : BaseFilter annotation scalar row)
  : result (BaseFilter annotation scalar row) :=
  lookups <- collect_lookups (cls self) (QueryParams.items (request self)) [] ;;
  match model_validate (schema (cls self))
          (filter_obj lookups) (filter_context lookups) with
  | inr errors => Raise (get_exception (map Details errors))
  | inl validated_filter =>
      q <- apply_lookups (cls self) validated_filter lookups (_query self) ;;
      Ok (with_query self q)
  end.

Fixpoint getattr_all (klass : FilterClass annotation) (names : list string)
  : result (list string) :=
  match names with
  | [] => Ok []
  | n :: rest =>
      c <- getattr_orm klass n ;;
      cs <- getattr_all klass rest ;;
      Ok (c :: cs)
  end.

Definition search (self : BaseFilter annotation scalar row)
  : result (BaseFilter annotation scalar row) :=
  match QueryParams.get (search_param (cls self)) (request self) with
  | None => Ok self
  | Some seqrch_query =>
      if negb (PyStr.truthy seqrch_query) then Ok self
      else
        let search_fields :=
          map fst (List.filter (fun kv => searchable (snd kv))
                     (schema (cls self))) in
        pk_field <- getattr_orm (cls self) "id" ;;
        columns <- getattr_all (cls self) search_fields ;;
        Ok (with_query self
              (query_order_by
                 (query_join (_query self) (mkRanking columns seqrch_query))
                 (OrderText "result" desc)))
  end.

Definition order (self : BaseFilter annotation scalar row)
  : result (BaseFilter annotation scalar row) :=
  let order_by :=
    match QueryParams.get (ordering_param (cls self)) (request self) with
    | Some s => if PyStr.truthy s then s else default_ordering (cls self)
    | None => default_ordering (cls self)
    end in
  match order_by with
  | EmptyString => Raise IndexError
  | String c rest =>
      let od :=
        if Ascii.eqb c "-" then (desc, rest)
        else (asc, if Ascii.eqb c "+" then rest else order_by) in
      let field_name := snd od in
      match PyDict.get field_name (schema (cls self)) with
      | None =>
          Raise (get_exception
            [Message ("Unknown ordering field '" ++ field_name ++ "'")])
      | Some order_field =>
          if negb (orderable order_field)
          then Raise (get_exception
                 [Message ("Ordering by '" ++ field_name
                           ++ "' is not permitted")])
          else
            model_field <- getattr_orm (cls self) field_name ;;
            Ok (with_query self
                  (query_order_by (_query self)
                     (OrderColumn model_field (fst od))))
      end
  end.

Definition offset (self : BaseFilter annotation scalar row)
  : BaseFilter annotation scalar row :=
  with_query self
    (query_offset (_query self)
       (page (paginator self) * per_page (paginator self))%Z).

Definition limit (self : BaseFilter annotation scalar row)
  : BaseFilter annotation scalar row :=
  with_query self (query_limit (_query self) (per_page (paginator self))).

Definition full (self : BaseFilter annotation scalar row)
  : result (BaseFilter annotation scalar row) :=
  s1 <- filter self ;;
  s2 <- search s1 ;;
  s3 <- order s2 ;;
  Ok (limit (offset s3)).

Definition get_query (self : BaseFilter annotation scalar row)
  : Select scalar := _query self.

(** One integer field of the paginator given as an integer, as the
    keyword arguments of its constructor are. *)
Definition validate_int_value (name : string) (ge : Z) (le : option Z)
  (n : Z) : Z + ErrorDetails :=
  if (n <? ge)%Z
  then inr (mkErrorDetails "greater_than_equal" [LocName name])
  else
    match le with
    | Some hi =>
        if (hi <? n)%Z
        then inr (mkErrorDetails "less_than_equal" [LocName name])
        else inl n
    | None => inl n
    end.

(** [paginator_class(page=..., per_page=..., results=...)]: the constructor
    validates its arguments like [model_validate]; the rows are results the
    caller has validated. *)
Definition BasePaginator_construct (page per_page : Z) (results : list row)
  : BasePaginator row + list ErrorDetails :=
  let p := validate_int_value "page" 0 None page in
  let pp := validate_int_value "per_page" 1 (Some 100%Z) per_page in
  match p, pp with
  | inl page, inl per_page => inl (mkBasePaginator page per_page results)
  | _, _ => inr (errors_of p ++ errors_of pp)
  end.

(** [get_response]: the envelope, or the lines of the [ValidationError] the
    constructor raises. *)
Definition get_response (self : BaseFilter annotation scalar row)
  (scalars : list row) : BasePaginator row + list ErrorDetails :=
  BasePaginator_construct (page (paginator self)) (per_page (paginator self))
    scalars.

(** [__init_subclass__]: [cls_dict] holds the names of the attributes the
    subclass itself defines; the result is the message of the [ValueError]
    raised, if any. *)
Fixpoint require_attributes (fields : list string) (cls_dict : list string)
  : option string :=
  match fields with
  | [] => None
  | field :: rest =>
      if existsb (String.eqb field) cls_dict
      then require_attributes rest cls_dict
      else Some ("'" ++ field ++ "' class attribute is required")%string
  end.

Definition __init_subclass__ (cls_dict : list string) : option string :=
  require_attributes ["orm_model"; "schema"] cls_dict.

(** ** The vocabulary of the specification *)

Definition UnknownLookupOperator (suffix : string) : exn :=
  get_exception [Message ("Unknown lookup '" ++ suffix ++ "'")].

Definition UnknownFilterField (field : string) : exn :=
  get_exception [Message ("Unknown filtering field '" ++ field ++ "'")].

Definition UnknownOrderingField (field : string) : exn :=
  get_exception [Message ("Unknown ordering field '" ++ field ++ "'")].

Definition OrderingNotPermittedError (field : string) : exn :=
  get_exception [Message ("Ordering by '" ++ field ++ "' is not permitted")].

(** A range violation of a pagination parameter, as one line of the
    aggregate error. *)
Definition PaginationRangeError (param bound : string) : error_entry :=
  Details (mkErrorDetails bound [LocName param]).

(** A key of the request the first loop of [filter] gets past: it is
    reserved, or it parses to a lookup on a declared field. *)
Definition accepted (klass : FilterClass annotation) (kv : string * string)
  : Prop :=
  reserved klass (fst kv) = true \/
  exists l, parse_key klass (fst kv) (snd kv) = Ok l.

(** The lookup recorded for an operator of the specification's vocabulary:
    [eq] is the bare key, the others are the suffixes of the table. *)
Definition lookup_of_operator (operator : string) : option string :=
  if String.eqb operator "eq" then Some "__eq__"
  else PyDict.get operator ORM_LOOKUP_MAPPING.

(** The tokens of a membership value that the declared type rejects. *)
Definition rejected_tokens (a : annotation) (tokens : list string)
  : list string :=
  List.filter (fun tok => match coerce a tok with
                          | inl _ => false
                          | inr _ => true
                          end) tokens.

(** The ordering the specification reads off a value: the sign and the
    field name. *)
Definition ordering_of (s : string) : direction * string :=
  match s with
  | String "-"%char rest => (desc, rest)
  | String "+"%char rest => (asc, rest)
  | _ => (asc, s)
  end.

(** The ordering stage in the words of the specification, for the value
    [requested] that is parsed. *)
Definition order_spec (self : BaseFilter annotation scalar row)
  (requested : string) : result (BaseFilter annotation scalar row) :=
  let (dir, field) := ordering_of requested in
  match PyDict.get field (schema (cls self)) with
  | None => Raise (UnknownOrderingField field)
  | Some info =>
      if orderable info
      then
        column <- getattr_orm (cls self) field ;;
        Ok (with_query self
              (query_order_by (_query self) (OrderColumn column dir)))
      else Raise (OrderingNotPermittedError field)
  end.

(** The value the specification parses: the parameter, or the default when
    the parameter is absent. *)
Definition requested_ordering_spec (self : BaseFilter annotation scalar row)
  : string :=
  match QueryParams.get (ordering_param (cls self)) (request self) with
  | Some s => s
  | None => default_ordering (cls self)
  end.

(** The value the code parses: an empty parameter counts as absent. *)
Definition requested_ordering (self : BaseFilter annotation scalar row)
  : string :=
  match QueryParams.get (ordering_param (cls self)) (request self) with
  | Some s => if PyStr.truthy s then s else default_ordering (cls self)
  | None => default_ordering (cls self)
  end.

(** The lines a field contributes to the error of [model_validate]. *)
Definition field_errors (info : FilterFieldInfo annotation) (field : string)
  (v : string) (context : PyDict.t string) : list ErrorDetails :=
  match name_must_contain_space info field v context with
  | Validated _ => []
  | ValueError _ => [mkErrorDetails "value_error" [LocName field]]
  | ValidationError line_errors =>
      map (with_outer_location field) line_errors
  end.

(** The coercion errors of a request: those of every field of the schema
    that the request gives a value, in declaration order. *)
Definition schema_errors (fields : PyDict.t (FilterFieldInfo annotation))
  (obj : PyDict.t string) (context : PyDict.t string) : list ErrorDetails :=
  flat_map (fun kv =>
              match PyDict.get (fst kv) obj with
              | Some v => field_errors (snd kv) (fst kv) v context
              | None => []
              end) fields.

(** The field an error line is reported for. *)
Definition located_at (field : string) (e : ErrorDetails) : Prop :=
  hd_error (err_loc e) = Some (LocName field).

(** The value of the last pair with key [k], if there is one. *)
Definition last_value {V : Type} (k : string) (pairs : list (string * V))
  : option V :=
  fold_left (fun acc kv => if String.eqb k (fst kv) then Some (snd kv) else acc)
    pairs None.

(** The keys of the request that [filter] turns into lookups. *)
Definition filter_keys (klass : FilterClass annotation) (q : QueryParams.t)
  : list (string * string) :=
  List.filter (fun kv => negb (reserved klass (fst kv))) (QueryParams.items q).

(** The fields [search] ranks over. *)
Definition search_fields (klass : FilterClass annotation) : list string :=
  map fst (List.filter (fun kv => searchable (snd kv)) (schema klass)).

(** The method names a lookup can carry. *)
Definition lookup_method (m : string) : Prop :=
  m = "__eq__" \/ exists suffix, PyDict.get suffix ORM_LOOKUP_MAPPING = Some m.

(** Every field of the schema is an attribute of the ORM class. *)
Definition schema_mapped (klass : FilterClass annotation) : Prop :=
  forall name, PyDict.mem name (schema klass) = true ->
               In name (orm_model klass).

(** A client error, as opposed to a crash. *)
Definition client_error (A : Type) (r : result A) : Prop :=
  exists errors, r = Raise (RequestValidationError errors).

(** * Properties *)

(** ** The result monad *)

Lemma bind_Ok_inv (A B : Type) (r : result A) (k : A -> result B) (b : B) :
  bind r k = Ok b -> exists a, r = Ok a /\ k a = Ok b.
Proof.
  destruct r as [a|e]; simpl; intros H.
  - exists a. split; [reflexivity | exact H].
  - discriminate H.
Qed.

(** ** The first loop of [filter] fails fast *)

Lemma collect_lookups_app klass pre rest acc :
  collect_lookups klass (pre ++ rest) acc =
  (ls <- collect_lookups klass pre acc ;; collect_lookups klass rest ls).
Proof.
  revert acc. induction pre as [|[k v] pre IH]; intros acc; simpl.
  - reflexivity.
  - destruct (reserved klass k).
    + apply IH.
    + destruct (parse_key klass k v) as [l|e]; simpl.
      * apply IH.
      * reflexivity.
Qed.

Lemma collect_lookups_accepted klass pre acc :
  Forall (accepted klass) pre ->
  exists ls, collect_lookups klass pre acc = Ok ls.
Proof.
  intros H. revert acc.
  induction H as [|[k v] pre Hkv _ IH]; intros acc; simpl.
  - exists acc. reflexivity.
  - destruct (reserved klass k) eqn:Hr.
    + apply IH.
    + destruct Hkv as [Hres | [l Hl]]; simpl in *.
      * congruence.
      * rewrite Hl. simpl. apply IH.
Qed.

Lemma collect_lookups_first_invalid klass pre key value post acc e :
  Forall (accepted klass) pre ->
  reserved klass key = false ->
  parse_key klass key value = Raise e ->
  collect_lookups klass (pre ++ (key, value) :: post) acc = Raise e.
Proof.
  intros Hpre Hres Hparse.
  rewrite collect_lookups_app.
  destruct (collect_lookups_accepted acc Hpre) as [ls Hls].
  rewrite Hls. simpl. rewrite Hres, Hparse. reflexivity.
Qed.

Lemma filter_first_invalid self pre key value post e :
  QueryParams.items (request self) = pre ++ (key, value) :: post ->
  Forall (accepted (cls self)) pre ->
  reserved (cls self) key = false ->
  parse_key (cls self) key value = Raise e ->
  filter self = Raise e.
Proof.
  intros Hitems Hpre Hres Hparse. unfold filter.
  rewrite Hitems.
  rewrite collect_lookups_first_invalid with (e := e); auto.
Qed.

Lemma parse_key_unknown_lookup klass key value field suffix :
  PyStr.split "__" key = [field; suffix] ->
  PyDict.get suffix ORM_LOOKUP_MAPPING = None ->
  parse_key klass key value = Raise (UnknownLookupOperator suffix).
Proof.
  intros Hsplit Hop. unfold parse_key. rewrite Hsplit, Hop. reflexivity.
Qed.

Lemma parse_key_suffix klass key value field suffix lookup :
  PyStr.split "__" key = [field; suffix] ->
  PyDict.get suffix ORM_LOOKUP_MAPPING = Some lookup ->
  parse_key klass key value =
  if PyDict.mem field (schema klass)
  then Ok (mkLookupInfo field lookup value)
  else Raise (UnknownFilterField field).
Proof.
  intros Hsplit Hop. unfold parse_key. rewrite Hsplit, Hop. reflexivity.
Qed.

Lemma parse_key_whole klass key value :
  length (PyStr.split "__" key) <> 2%nat ->
  parse_key klass key value =
  if PyDict.mem key (schema klass)
  then Ok (mkLookupInfo key "__eq__" value)
  else Raise (UnknownFilterField key).
Proof.
  intros Hlen. unfold parse_key.
  destruct (PyStr.split "__" key) as [|a [|b [|c l]]]; simpl in *;
    try reflexivity.
  congruence.
Qed.

(** C3. A key that splits into a field and a suffix outside the operator
    table makes [filter] fail with [UnknownLookupOperator suffix] as soon as
    the loop reaches it, whatever the schema declares: nothing is assumed
    about the field, so the failure precedes the field-existence check. *)
Theorem filter_unknown_lookup_before_field self pre key value post field suffix :
  QueryParams.items (request self) = pre ++ (key, value) :: post ->
  Forall (accepted (cls self)) pre ->
  reserved (cls self) key = false ->
  PyStr.split "__" key = [field; suffix] ->
  PyDict.get suffix ORM_LOOKUP_MAPPING = None ->
  parse_key (cls self) key value = Raise (UnknownLookupOperator suffix) /\
  filter self = Raise (UnknownLookupOperator suffix) /\
  full self = Raise (UnknownLookupOperator suffix).
Proof.
  intros Hitems Hpre Hres Hsplit Hop.
  assert (Hp : parse_key (cls self) key value
               = Raise (UnknownLookupOperator suffix))
    by (eapply parse_key_unknown_lookup; eauto).
  assert (Hf : filter self = Raise (UnknownLookupOperator suffix))
    by (eapply filter_first_invalid; eauto).
  repeat split; try assumption.
  unfold full. rewrite Hf. reflexivity.
Qed.

(** C1 (amended). A key whose suffix is one of the eight suffixes of the
    operator table, on a field the schema does not declare, makes [filter]
    fail with [UnknownFilterField field]; [eq] is not among the suffixes,
    equality being the bare key. *)
Theorem filter_unknown_field_after_operator
  self pre key value post field suffix lookup :
  QueryParams.items (request self) = pre ++ (key, value) :: post ->
  Forall (accepted (cls self)) pre ->
  reserved (cls self) key = false ->
  PyStr.split "__" key = [field; suffix] ->
  PyDict.get suffix ORM_LOOKUP_MAPPING = Some lookup ->
  PyDict.mem field (schema (cls self)) = false ->
  filter self = Raise (UnknownFilterField field) /\
  In suffix ["neq"; "gt"; "gte"; "lt"; "lte"; "in"; "not_in"; "regexp"] /\
  PyDict.get "eq" ORM_LOOKUP_MAPPING = None.
Proof.
  intros Hitems Hpre Hres Hsplit Hop Hmem.
  split; [|split].
  - eapply filter_first_invalid; eauto.
    rewrite (parse_key_suffix (cls self) key value Hsplit Hop), Hmem.
    reflexivity.
  - revert Hop. unfold ORM_LOOKUP_MAPPING. simpl.
    repeat match goal with
    | |- context [String.eqb suffix ?k] =>
        destruct (String.eqb_spec suffix k); [subst; simpl; auto 12|]
    end.
    discriminate.
  - reflexivity.
Qed.

(** C9. A key with more than two parts is never an operator error: the
    whole key is the field name, with equality; [filter] fails on it with
    [UnknownFilterField key] unless the schema declares the whole key. *)
Theorem filter_many_parts_whole_key self pre key value post :
  QueryParams.items (request self) = pre ++ (key, value) :: post ->
  Forall (accepted (cls self)) pre ->
  reserved (cls self) key = false ->
  (2 < length (PyStr.split "__" key))%nat ->
  (forall suffix,
     parse_key (cls self) key value <> Raise (UnknownLookupOperator suffix)) /\
  (PyDict.mem key (schema (cls self)) = true ->
     parse_key (cls self) key value = Ok (mkLookupInfo key "__eq__" value)) /\
  (PyDict.mem key (schema (cls self)) = false ->
     filter self = Raise (UnknownFilterField key)).
Proof.
  intros Hitems Hpre Hres Hlen.
  assert (Hp : parse_key (cls self) key value =
               if PyDict.mem key (schema (cls self))
               then Ok (mkLookupInfo key "__eq__" value)
               else Raise (UnknownFilterField key))
    by (apply parse_key_whole; lia).
  split; [|split].
  - intros suffix. rewrite Hp.
    destruct (PyDict.mem key (schema (cls self))); discriminate.
  - intros Hmem. rewrite Hp, Hmem. reflexivity.
  - intros Hmem. eapply filter_first_invalid; eauto.
    rewrite Hp, Hmem. reflexivity.
Qed.

(** ** Coercion by operator *)

Lemma validate_items_ok field a tokens : forall i xs,
  Forall2 (fun tok x => coerce a tok = inl x) tokens xs ->
  validate_items field a i tokens = (xs, []).
Proof.
  induction tokens as [|tok rest IH]; intros i xs H; inversion H; subst; simpl.
  - reflexivity.
  - rewrite (IH (S i) l') by assumption.
    match goal with Hc : coerce a tok = _ |- _ => rewrite Hc end.
    reflexivity.
Qed.

Lemma validate_items_errors field a tokens : forall i,
  length (snd (validate_items field a i tokens)) =
  length (rejected_tokens a tokens) /\
  Forall (located_at field) (snd (validate_items field a i tokens)).
Proof.
  induction tokens as [|tok rest IH]; intros i; simpl.
  - split; [reflexivity | constructor].
  - destruct (IH (S i)) as [Hlen Hloc].
    destruct (validate_items field a (S i) rest) as [xs errs].
    simpl in *. destruct (coerce a tok); simpl.
    + split; assumption.
    + split; [f_equal; assumption | constructor; [reflexivity | assumption]].
Qed.

Lemma lookup_of_operator_membership operator lookup :
  lookup_of_operator operator = Some lookup ->
  is_membership (Some lookup) =
  orb (String.eqb operator "in") (String.eqb operator "not_in").
Proof.
  unfold lookup_of_operator, ORM_LOOKUP_MAPPING. simpl.
  repeat match goal with
  | |- context [String.eqb operator ?k] =>
      destruct (String.eqb_spec operator k);
      [subst; simpl; intros H; inversion H; subst; reflexivity|]
  end.
  discriminate.
Qed.

Lemma located_at_reattached field errs :
  Forall (located_at field) (map (with_outer_location field) errs).
Proof.
  induction errs; simpl; constructor; [reflexivity | assumption].
Qed.

Lemma field_errors_membership info field a v context :
  annotation_of info = Some a ->
  context <> [] ->
  is_membership (PyDict.get field context) = true ->
  length (field_errors info field v context) =
  length (rejected_tokens a (PyStr.split "," v)) /\
  Forall (located_at field) (field_errors info field v context) /\
  (forall xs,
     Forall2 (fun tok x => coerce a tok = inl x) (PyStr.split "," v) xs ->
     name_must_contain_space info field v context = Validated (PyList xs)) /\
  (rejected_tokens a (PyStr.split "," v) <> [] ->
   exists errs,
     name_must_contain_space info field v context = ValidationError errs).
Proof.
  intros Hann Hne Hmem.
  destruct context as [|kv rest]; [congruence|].
  unfold field_errors, name_must_contain_space.
  rewrite Hann, Hmem. unfold validate_list.
  destruct (validate_items_errors field a (PyStr.split "," v) 0)
    as [Hlen Hloc].
  split; [|split; [|split]].
  - destruct (validate_items field a 0 (PyStr.split "," v)) as [xs errs].
    simpl in Hlen. destruct errs as [|e errs]; simpl in *.
    + exact Hlen.
    + rewrite !length_map. exact Hlen.
  - destruct (validate_items field a 0 (PyStr.split "," v)) as [xs errs].
    destruct errs as [|e errs]; [constructor|].
    apply located_at_reattached.
  - intros xs Hall. rewrite (validate_items_ok field 0 Hall). reflexivity.
  - intros Hrej.
    destruct (validate_items field a 0 (PyStr.split "," v)) as [xs errs].
    simpl in Hlen. destruct errs as [|e errs].
    + destruct (rejected_tokens a (PyStr.split "," v));
        [congruence | discriminate Hlen].
    + eexists. reflexivity.
Qed.

Lemma field_errors_plain info field a v context :
  annotation_of info = Some a ->
  context <> [] ->
  is_membership (PyDict.get field context) = false ->
  name_must_contain_space info field v context =
  match coerce a v with
  | inl x => Validated (PyScalar x)
  | inr ety => ValidationError [mkErrorDetails ety []]
  end /\
  field_errors info field v context =
  match coerce a v with
  | inl _ => []
  | inr ety => [mkErrorDetails ety [LocName field]]
  end.
Proof.
  intros Hann Hne Hmem.
  destruct context as [|kv rest]; [congruence|].
  unfold field_errors, name_must_contain_space.
  rewrite Hann, Hmem. unfold validate_plain.
  destruct (coerce a v); split; reflexivity.
Qed.

(** C4. With [in] or [not_in] the raw value is split on commas and every
    token is coerced to the declared type: the result is the list of the
    coerced tokens, and every token the type rejects gives a coercion error
    located at the field.  With any other operator the raw value is coerced
    as one scalar. *)
Theorem validation_by_operator info field a v context operator lookup :
  annotation_of info = Some a ->
  lookup_of_operator operator = Some lookup ->
  PyDict.get field context = Some lookup ->
  if orb (String.eqb operator "in") (String.eqb operator "not_in")
  then
    (forall xs,
       Forall2 (fun tok x => coerce a tok = inl x) (PyStr.split "," v) xs ->
       name_must_contain_space info field v context = Validated (PyList xs))
    /\
    (rejected_tokens a (PyStr.split "," v) <> [] ->
     exists errs,
       name_must_contain_space info field v context = ValidationError errs)
    /\
    length (field_errors info field v context) =
    length (rejected_tokens a (PyStr.split "," v)) /\
    Forall (located_at field) (field_errors info field v context)
  else
    name_must_contain_space info field v context =
    match coerce a v with
    | inl x => Validated (PyScalar x)
    | inr ety => ValidationError [mkErrorDetails ety []]
    end /\
    field_errors info field v context =
    match coerce a v with
    | inl _ => []
    | inr ety => [mkErrorDetails ety [LocName field]]
    end.
Proof.
  intros Hann Hop Hctx.
  pose proof (lookup_of_operator_membership operator Hop) as Hmem.
  rewrite <- Hctx in Hmem.
  assert (Hne : context <> []) by (intros ->; discriminate Hctx).
  destruct (orb (String.eqb operator "in") (String.eqb operator "not_in")).
  - destruct (field_errors_membership info field v Hann Hne Hmem)
      as (Hlen & Hloc & Hok & Herr).
    repeat split; assumption.
  - apply field_errors_plain; assumption.
Qed.

(** ** Coercion errors are batched, parser errors are not *)

Lemma validate_fields_errors fields obj context :
  snd (validate_fields fields obj context) = schema_errors fields obj context.
Proof.
  induction fields as [|[name info] rest IH]; simpl.
  - reflexivity.
  - destruct (validate_fields rest obj context) as [vals errs].
    simpl in IH. subst errs.
    destruct (PyDict.get name obj) as [v|]; simpl.
    + unfold field_errors.
      destruct (name_must_contain_space info name v context); reflexivity.
    + reflexivity.
Qed.

Lemma model_validate_errors fields obj context :
  schema_errors fields obj context <> [] ->
  model_validate fields obj context = inr (schema_errors fields obj context).
Proof.
  intros Hne. unfold model_validate.
  pose proof (validate_fields_errors fields obj context) as H.
  destruct (validate_fields fields obj context) as [vals errs].
  simpl in H. subst errs.
  destruct (schema_errors fields obj context); [congruence | reflexivity].
Qed.

Lemma model_validate_clean fields obj context :
  schema_errors fields obj context = [] ->
  model_validate fields obj context =
  inl (fst (validate_fields fields obj context)).
Proof.
  intros Hnil. unfold model_validate.
  pose proof (validate_fields_errors fields obj context) as H.
  destruct (validate_fields fields obj context) as [vals errs].
  simpl in *. rewrite H, Hnil. reflexivity.
Qed.

Lemma parse_key_error_single klass key value e :
  parse_key klass key value = Raise e ->
  exists msg, e = get_exception [Message msg].
Proof.
  unfold parse_key.
  destruct (PyStr.split "__" key) as [|f [|s [|x l]]];
    try match goal with
        | |- context [PyDict.get ?s ORM_LOOKUP_MAPPING] =>
            destruct (PyDict.get s ORM_LOOKUP_MAPPING)
        end;
    cbn [bind fst snd];
    try match goal with
        | |- context [PyDict.mem ?f ?d] => destruct (PyDict.mem f d)
        end;
    intros H; inversion H; eauto.
Qed.

Lemma fold_set_nonempty (V : Type) (ps : list (string * V)) : forall d,
  d <> [] ->
  fold_left (fun d kv => PyDict.set (fst kv) (snd kv) d) ps d <> [].
Proof.
  induction ps as [|p ps IH]; intros d Hd; simpl; [assumption|].
  apply IH. destruct d as [|[k' v'] d']; [congruence|].
  simpl. destruct (String.eqb (fst p) k'); discriminate.
Qed.

Lemma filter_context_nonempty lookups :
  lookups <> [] -> filter_context lookups <> [].
Proof.
  destruct lookups as [|l ls]; [congruence|]. intros _.
  unfold filter_context, PyDict.of_pairs. simpl.
  apply fold_set_nonempty. discriminate.
Qed.

Lemma schema_errors_empty_obj fields context :
  schema_errors fields [] context = [].
Proof.
  induction fields as [|[name info] rest IH]; [reflexivity|].
  unfold schema_errors in *. simpl. exact IH.
Qed.

Lemma collect_lookups_error_single klass items : forall acc e,
  collect_lookups klass items acc = Raise e ->
  exists msg, e = get_exception [Message msg].
Proof.
  induction items as [|[k v] rest IH]; intros acc e; simpl.
  - discriminate.
  - destruct (reserved klass k); [apply IH|].
    destruct (parse_key klass k v) as [l|e'] eqn:Hp; simpl.
    + apply IH.
    + intros H. inversion H; subst.
      eapply parse_key_error_single; eauto.
Qed.

(** C5 (amended). Once every key has parsed, the coercion errors of all the
    fields of the request are raised together, in one aggregate error, in
    declaration order: a field with a scalar operator contributes one entry
    when its value is rejected, a field with [in] or [not_in] one entry per
    rejected token.  A parser error, by contrast, is raised alone, by the
    first invalid key. *)
Theorem coercion_errors_batched self lookups :
  collect_lookups (cls self) (QueryParams.items (request self)) []
    = Ok lookups ->
  schema_errors (schema (cls self)) (filter_obj lookups)
    (filter_context lookups) <> [] ->
  filter self =
    Raise (get_exception
             (map Details
                (schema_errors (schema (cls self)) (filter_obj lookups)
                   (filter_context lookups)))) /\
  (forall name info v,
     In (name, info) (schema (cls self)) ->
     PyDict.get name (filter_obj lookups) = Some v ->
     incl (field_errors info name v (filter_context lookups))
       (schema_errors (schema (cls self)) (filter_obj lookups)
          (filter_context lookups))) /\
  (forall name info v a,
     annotation_of info = Some a ->
     length (field_errors info name v (filter_context lookups)) =
     if is_membership (PyDict.get name (filter_context lookups))
     then length (rejected_tokens a (PyStr.split "," v))
     else match coerce a v with
          | inl _ => 0%nat
          | inr _ => 1%nat
          end) /\
  (forall other e,
     collect_lookups (cls other) (QueryParams.items (request other)) []
       = Raise e ->
     filter other = Raise e /\ exists msg, e = get_exception [Message msg]).
Proof.
  intros Hcollect Herrs.
  assert (Hctx : filter_context lookups <> []).
  { apply filter_context_nonempty. intros ->. apply Herrs.
    apply schema_errors_empty_obj. }
  split; [|split; [|split]].
  - unfold filter. rewrite Hcollect. simpl.
    rewrite (model_validate_errors _ _ _ Herrs). reflexivity.
  - intros name info v Hin Hget e He. unfold schema_errors.
    apply in_flat_map. exists (name, info). simpl. rewrite Hget. auto.
  - intros name info v a Hann.
    destruct (is_membership (PyDict.get name (filter_context lookups)))
      eqn:Hmem.
    + apply (field_errors_membership info name v Hann Hctx Hmem).
    + destruct (field_errors_plain info name v Hann Hctx Hmem) as [_ ->].
      destruct (coerce a v); reflexivity.
  - intros other e He. split.
    + unfold filter. rewrite He. reflexivity.
    + eapply collect_lookups_error_single; eauto.
Qed.

(** ** The ordering stage *)

Lemma ordering_of_cons c rest :
  ordering_of (String c rest) =
  if Ascii.eqb c "-" then (desc, rest)
  else (asc, if Ascii.eqb c "+" then rest else String c rest).
Proof.
  destruct c as [[] [] [] [] [] [] [] []]; reflexivity.
Qed.

Lemma order_as_spec self :
  requested_ordering self <> "" ->
  order self = order_spec self (requested_ordering self).
Proof.
  unfold order, order_spec. fold (requested_ordering self).
  destruct (requested_ordering self) as [|c rest]; [congruence|].
  intros _. rewrite ordering_of_cons.
  destruct (Ascii.eqb c "-"); simpl.
  - destruct (PyDict.get rest (schema (cls self))) as [info|];
      [destruct (orderable info)|]; reflexivity.
  - destruct (PyDict.get _ (schema (cls self))) as [info|];
      [destruct (orderable info)|]; reflexivity.
Qed.

Lemma truthy_nonempty s : PyStr.truthy s = true -> s <> "".
Proof. destruct s; [discriminate | discriminate]. Qed.

Lemma requested_ordering_nonempty self :
  default_ordering (cls self) <> "" -> requested_ordering self <> "".
Proof.
  intros Hd. unfold requested_ordering.
  destruct (QueryParams.get _ _) as [s|]; [|assumption].
  destruct (PyStr.truthy s) eqn:Ht; [|assumption].
  apply truthy_nonempty; assumption.
Qed.

(** C6 (amended). The value parsed by the ordering stage is the ordering
    parameter, or the default when the parameter is absent or empty; on that
    value the stage does what the specification says: [-] is descending and
    stripped, [+] ascending and stripped, no sign ascending, and the field
    must be declared and orderable, with [UnknownOrderingField] and
    [OrderingNotPermittedError] otherwise. *)
Theorem order_parses_sign_and_checks_field self :
  default_ordering (cls self) <> "" ->
  order self = order_spec self (requested_ordering self) /\
  (QueryParams.get (ordering_param (cls self)) (request self) = None ->
   requested_ordering self = default_ordering (cls self)) /\
  (QueryParams.get (ordering_param (cls self)) (request self) = Some "" ->
   requested_ordering self = default_ordering (cls self)) /\
  (forall s,
     QueryParams.get (ordering_param (cls self)) (request self) = Some s ->
     s <> "" -> requested_ordering self = s) /\
  (forall field, ordering_of (String "-" field) = (desc, field)) /\
  (forall field, ordering_of (String "+" field) = (asc, field)) /\
  (forall c field,
     c <> "-"%char -> c <> "+"%char ->
     ordering_of (String c field) = (asc, String c field)).
Proof.
  intros Hd. repeat split.
  - apply order_as_spec, requested_ordering_nonempty, Hd.
  - unfold requested_ordering. intros ->. reflexivity.
  - unfold requested_ordering. intros ->. reflexivity.
  - unfold requested_ordering. intros s -> Hs.
    destruct s; [congruence | reflexivity].
  - intros c field Hm Hp. rewrite ordering_of_cons.
    destruct (Ascii.eqb_spec c "-"); [congruence|].
    destruct (Ascii.eqb_spec c "+"); [congruence|]. reflexivity.
Qed.

(** C10. A request without the ordering parameter is ordered by the default,
    which is resolved like an explicit value: when the schema does not
    declare the field it names as an orderable field, the ordering stage
    fails, with [UnknownOrderingField] when the field is not declared and
    [OrderingNotPermittedError] when it is declared but not orderable. *)
Theorem default_ordering_is_resolved self :
  QueryParams.get (ordering_param (cls self)) (request self) = None ->
  default_ordering (cls self) <> "" ->
  (forall info,
     PyDict.get (snd (ordering_of (default_ordering (cls self))))
       (schema (cls self)) = Some info ->
     orderable info = false) ->
  order self =
  Raise (match PyDict.get (snd (ordering_of (default_ordering (cls self))))
                 (schema (cls self)) with
         | None =>
             UnknownOrderingField
               (snd (ordering_of (default_ordering (cls self))))
         | Some _ =>
             OrderingNotPermittedError
               (snd (ordering_of (default_ordering (cls self))))
         end).
Proof.
  intros Habsent Hd Hnot.
  rewrite order_as_spec by (apply requested_ordering_nonempty, Hd).
  unfold requested_ordering. rewrite Habsent. unfold order_spec.
  destruct (ordering_of (default_ordering (cls self))) as [dir field].
  simpl in *.
  destruct (PyDict.get field (schema (cls self))) as [info|]; [|reflexivity].
  rewrite (Hnot info eq_refl). reflexivity.
Qed.

(** ** Stages amend the query and nothing else *)

Lemma apply_lookups_query klass validated lookups : forall q q',
  apply_lookups klass validated lookups q = Ok q' ->
  joins q' = joins q /\
  order_by_clauses q' = order_by_clauses q /\
  offset_clause q' = offset_clause q /\
  limit_clause q' = limit_clause q /\
  length (whereclause q') = (length (whereclause q) + length lookups)%nat.
Proof.
  induction lookups as [|l rest IH]; intros q q'; simpl.
  - intros H; inversion H; subst. repeat split. lia.
  - intros H. apply bind_Ok_inv in H. destruct H as (col & _ & H).
    apply bind_Ok_inv in H. destruct H as (arg & _ & H).
    apply bind_Ok_inv in H. destruct H as (p & _ & H).
    apply IH in H. simpl in H.
    destruct H as (Hj & Ho & Hoff & Hlim & Hlen).
    repeat split; try assumption.
    rewrite Hlen, length_app. simpl. lia.
Qed.

Lemma filter_frame self s' :
  filter self = Ok s' ->
  cls s' = cls self /\ request s' = request self /\
  paginator s' = paginator self /\
  joins (_query s') = joins (_query self) /\
  order_by_clauses (_query s') = order_by_clauses (_query self).
Proof.
  unfold filter. intros H.
  apply bind_Ok_inv in H. destruct H as (lookups & _ & H).
  destruct (model_validate _ _ _) as [validated|errs]; [|discriminate].
  apply bind_Ok_inv in H. destruct H as (q & Hq & H).
  inversion H; subst. simpl.
  apply apply_lookups_query in Hq. tauto.
Qed.

Lemma search_frame self s' :
  search self = Ok s' ->
  cls s' = cls self /\ request s' = request self /\
  paginator s' = paginator self /\
  whereclause (_query s') = whereclause (_query self) /\
  exists ranked,
    order_by_clauses (_query s') = order_by_clauses (_query self) ++ ranked /\
    (ranked = [] \/ ranked = [OrderText "result" desc]).
Proof.
  unfold search. intros H.
  destruct (QueryParams.get _ _) as [sq|].
  - destruct (PyStr.truthy sq); simpl in H.
    + apply bind_Ok_inv in H. destruct H as (pk & _ & H).
      apply bind_Ok_inv in H. destruct H as (cols & _ & H).
      inversion H; subst. simpl. repeat split.
      exists [OrderText "result" desc]. auto.
    + inversion H; subst. repeat split.
      exists []. rewrite app_nil_r. auto.
  - inversion H; subst. repeat split.
    exists []. rewrite app_nil_r. auto.
Qed.

Lemma order_frame self s' :
  order self = Ok s' ->
  cls s' = cls self /\ request s' = request self /\
  paginator s' = paginator self /\
  whereclause (_query s') = whereclause (_query self) /\
  exists column dir,
    order_by_clauses (_query s') =
    order_by_clauses (_query self) ++ [OrderColumn column dir].
Proof.
  unfold order. intros H.
  destruct (match QueryParams.get _ _ with Some _ => _ | None => _ end)
    as [|c rest]; [discriminate|].
  cbv zeta in H.
  destruct (PyDict.get _ (schema (cls self))) as [info|]; [|discriminate].
  destruct (negb (orderable info)); [discriminate|].
  apply bind_Ok_inv in H. destruct H as (col & _ & H).
  inversion H; subst. simpl. repeat split. eauto.
Qed.

(** ** Pagination *)

Lemma validate_int_field_range name default lo hi d n :
  validate_int_field name default lo hi d = inl n ->
  match PyDict.get name d with
  | None => n = default
  | Some raw =>
      int_coerce raw = inl n /\ (lo <= n)%Z /\
      match hi with
      | Some h => (n <= h)%Z
      | None => True
      end
  end.
Proof.
  unfold validate_int_field.
  destruct (PyDict.get name d) as [raw|].
  - destruct (int_coerce raw) as [m|ety]; [|discriminate].
    destruct (Z.ltb_spec m lo) as [Hlt|Hge]; [discriminate|].
    destruct hi as [h|].
    + destruct (Z.ltb_spec h m) as [Hgt|Hle]; [discriminate|].
      intros Heq; inversion Heq; subst. repeat split; lia.
    + intros Heq; inversion Heq; subst. repeat split; lia.
  - intros Heq; inversion Heq; subst. reflexivity.
Qed.

Lemma init_paginator klass request self :
  __init__ klass request = Ok self ->
  validate_int_field "page" 0 0 None (QueryParams._dict request)
    = inl (page (paginator self)) /\
  validate_int_field "per_page" 10 1 (Some 100%Z) (QueryParams._dict request)
    = inl (per_page (paginator self)) /\
  _query self = select /\ cls self = klass.
Proof.
  unfold __init__, BasePaginator_model_validate.
  destruct (validate_int_field "page" _ _ _ _) as [p|e1];
    destruct (validate_int_field "per_page" _ _ _ _) as [pp|e2];
    try discriminate.
  intros H; inversion H; subst. simpl. repeat split.
Qed.

Lemma init_fails_on_error klass request :
  forall e,
    In e (errors_of (validate_int_field "page" 0 0 None
                       (QueryParams._dict request)) ++
          errors_of (validate_int_field "per_page" 10 1 (Some 100%Z)
                       (QueryParams._dict request))) ->
    exists errors,
      __init__ klass request = Raise (get_exception errors) /\
      In (Details e) errors.
Proof.
  intros e Hin. unfold __init__, BasePaginator_model_validate.
  destruct (validate_int_field "page" _ _ _ _) as [p|e1];
    destruct (validate_int_field "per_page" _ _ _ _) as [pp|e2];
    simpl in Hin; try contradiction;
    eexists; (split; [reflexivity|]); apply in_map; simpl; tauto.
Qed.

Lemma full_inv self s' :
  full self = Ok s' ->
  exists s1 s2 s3,
    filter self = Ok s1 /\ search s1 = Ok s2 /\ order s2 = Ok s3 /\
    s' = limit (offset s3).
Proof.
  unfold full. intros H.
  apply bind_Ok_inv in H. destruct H as (s1 & H1 & H).
  apply bind_Ok_inv in H. destruct H as (s2 & H2 & H).
  apply bind_Ok_inv in H. destruct H as (s3 & H3 & H).
  inversion H; subst. eauto 8.
Qed.

Lemma full_paginator self s' :
  full self = Ok s' -> paginator s' = paginator self.
Proof.
  intros H. apply full_inv in H.
  destruct H as (s1 & s2 & s3 & H1 & H2 & H3 & ->).
  apply filter_frame in H1. apply search_frame in H2.
  apply order_frame in H3. simpl.
  destruct H1 as (_ & _ & E1 & _), H2 as (_ & _ & E2 & _),
    H3 as (_ & _ & E3 & _).
  congruence.
Qed.

Lemma full_error_precedence self e :
  (filter self = Raise e -> full self = Raise e) /\
  (forall s1, filter self = Ok s1 -> search s1 = Raise e ->
              full self = Raise e) /\
  (forall s1 s2, filter self = Ok s1 -> search s1 = Ok s2 ->
                 order s2 = Raise e -> full self = Raise e).
Proof.
  unfold full. repeat split.
  - intros ->. reflexivity.
  - intros s1 -> H. simpl. rewrite H. reflexivity.
  - intros s1 s2 -> H2 H3. simpl. rewrite H2. simpl. rewrite H3. reflexivity.
Qed.

(** C8. [full] is [filter], [search], [order], [offset], [limit], in this
    order: a result of [full] is the result of the five stages chained, the
    ordering clause of [order] follows the ranking clause of [search], and
    the query ends with [offset = page * per_page] and [limit = per_page]
    of the pagination state. *)
Theorem full_runs_stages_in_order self s' :
  full self = Ok s' ->
  (exists s1 s2 s3,
     filter self = Ok s1 /\ search s1 = Ok s2 /\ order s2 = Ok s3 /\
     s' = limit (offset s3) /\
     exists ranked column dir,
       order_by_clauses (_query s') =
       order_by_clauses (_query self) ++ ranked ++ [OrderColumn column dir] /\
       (ranked = [] \/ ranked = [OrderText "result" desc])) /\
  offset_clause (_query s') =
    Some (page (paginator self) * per_page (paginator self))%Z /\
  limit_clause (_query s') = Some (per_page (paginator self)) /\
  (forall s : BaseFilter annotation scalar row,
     offset_clause (_query (offset s)) =
       Some (page (paginator s) * per_page (paginator s))%Z /\
     limit_clause (_query (limit s)) = Some (per_page (paginator s))).
Proof.
  intros H. pose proof (full_inv self H) as Hinv.
  destruct Hinv as (s1 & s2 & s3 & H1 & H2 & H3 & ->).
  pose proof (filter_frame self H1) as (_ & _ & P1 & _ & O1).
  pose proof (search_frame s1 H2) as (_ & _ & P2 & _ & ranked & O2 & Hr).
  pose proof (order_frame s2 H3) as (_ & _ & P3 & _ & column & dir & O3).
  split; [|split; [|split]].
  - exists s1, s2, s3. repeat split; try assumption.
    exists ranked, column, dir. split; [|assumption].
    simpl. rewrite O3, O2, O1, app_assoc. reflexivity.
  - simpl. congruence.
  - simpl. congruence.
  - intros s. split; reflexivity.
Qed.

(** ** Repeated keys *)

Lemma get_set_same (V : Type) k (v : V) d :
  PyDict.get k (PyDict.set k v d) = Some v.
Proof.
  induction d as [|[k' v'] d IH]; simpl.
  - rewrite String.eqb_refl. reflexivity.
  - destruct (String.eqb k k') eqn:E; simpl; rewrite E; auto.
Qed.

Lemma get_set_other (V : Type) k k' (v : V) d :
  k' <> k -> PyDict.get k' (PyDict.set k v d) = PyDict.get k' d.
Proof.
  intros Hne. induction d as [|[k0 v0] d IH]; simpl.
  - destruct (String.eqb_spec k' k); [congruence | reflexivity].
  - destruct (String.eqb_spec k k0); simpl.
    + subst. destruct (String.eqb_spec k' k0); [congruence | reflexivity].
    + rewrite IH. reflexivity.
Qed.

Lemma keys_set (V : Type) k (v : V) d :
  PyDict.keys (PyDict.set k v d) =
  if PyDict.mem k d then PyDict.keys d else PyDict.keys d ++ [k].
Proof.
  unfold PyDict.mem, PyDict.keys.
  induction d as [|[k' v'] d IH]; simpl.
  - reflexivity.
  - destruct (String.eqb k k'); simpl; [reflexivity|].
    rewrite IH. destruct (PyDict.get k d); reflexivity.
Qed.

Lemma mem_keys (V : Type) k (d : PyDict.t V) :
  PyDict.mem k d = false -> ~ In k (PyDict.keys d).
Proof.
  unfold PyDict.mem, PyDict.keys.
  induction d as [|[k' v'] d IH]; simpl; [intros _ []|].
  destruct (String.eqb_spec k k'); [discriminate|].
  intros H [Heq|Hin]; [congruence | exact (IH H Hin)].
Qed.

Lemma fold_set_get (V : Type) k (pairs : list (string * V)) : forall d acc,
  PyDict.get k d = acc ->
  PyDict.get k
    (fold_left (fun d kv => PyDict.set (fst kv) (snd kv) d) pairs d) =
  fold_left (fun acc kv => if String.eqb k (fst kv) then Some (snd kv) else acc)
    pairs acc.
Proof.
  induction pairs as [|[k' v'] rest IH]; intros d acc Hd; simpl.
  - exact Hd.
  - apply IH. destruct (String.eqb_spec k k').
    + subst. apply get_set_same.
    + rewrite get_set_other by assumption. exact Hd.
Qed.

Lemma fold_set_NoDup (V : Type) (pairs : list (string * V)) : forall d,
  NoDup (PyDict.keys d) ->
  NoDup (PyDict.keys
           (fold_left (fun d kv => PyDict.set (fst kv) (snd kv) d) pairs d)).
Proof.
  induction pairs as [|[k v] rest IH]; intros d Hd; simpl; [assumption|].
  apply IH. rewrite keys_set.
  destruct (PyDict.mem k d) eqn:Hm; [assumption|].
  apply NoDup_app; repeat split; try assumption.
  - constructor; [intros [] | constructor].
  - intros x Hx [<-|[]]. exact (mem_keys k d Hm Hx).
Qed.

(** The request as [filter] reads it holds every key once, with the value
    of its last occurrence. *)
Lemma items_last_value_wins (q : QueryParams.t) :
  NoDup (map fst (QueryParams.items q)) /\
  forall k, QueryParams.get k q = last_value k q.
Proof.
  split.
  - apply (fold_set_NoDup q (@nil (string * string))). constructor.
  - intros k. unfold QueryParams.get, QueryParams._dict, PyDict.of_pairs.
    apply fold_set_get. reflexivity.
Qed.

Lemma parse_key_value klass key v l :
  parse_key klass key v = Ok l -> value l = v.
Proof.
  unfold parse_key. intros H.
  apply bind_Ok_inv in H. destruct H as (fl & _ & H).
  destruct (PyDict.mem (fst fl) (schema klass)); inversion H. reflexivity.
Qed.

(** Every key of the request that is not reserved gives one lookup, in the
    order of the keys. *)
Lemma collect_lookups_one_per_key klass items : forall acc lookups,
  collect_lookups klass items acc = Ok lookups ->
  exists fresh,
    lookups = acc ++ fresh /\
    Forall2 (fun kv l => parse_key klass (fst kv) (snd kv) = Ok l)
      (List.filter (fun kv => negb (reserved klass (fst kv))) items) fresh.
Proof.
  induction items as [|[k v] rest IH]; intros acc lookups; simpl.
  - intros H; inversion H; subst. exists []. rewrite app_nil_r.
    split; [reflexivity | constructor].
  - destruct (reserved klass k); simpl; [apply IH|].
    destruct (parse_key klass k v) as [l|e] eqn:Hp; simpl; [|discriminate].
    intros H. apply IH in H. destruct H as (fresh & -> & Hall).
    exists (l :: fresh). rewrite <- app_assoc. split; [reflexivity|].
    constructor; assumption.
Qed.

Lemma apply_lookups_predicates klass validated lookups : forall q q',
  apply_lookups klass validated lookups q = Ok q' ->
  exists preds,
    whereclause q' = whereclause q ++ preds /\
    Forall2 (fun l p =>
               pred_column p = field_name l /\ pred_method p = lookup l /\
               PyDict.get (field_name l) validated = Some (pred_arg p))
      lookups preds.
Proof.
  induction lookups as [|l rest IH]; intros q q'; simpl.
  - intros H; inversion H; subst. exists []. rewrite app_nil_r.
    split; [reflexivity | constructor].
  - intros H. apply bind_Ok_inv in H. destruct H as (col & Hcol & H).
    apply bind_Ok_inv in H. destruct H as (arg & Harg & H).
    apply bind_Ok_inv in H. destruct H as (p & Hp & H).
    assert (Hpred : p = mkPredicate col (lookup l) arg).
    { unfold column_method in Hp.
      destruct (orb _ _); [destruct arg|]; inversion Hp; reflexivity. }
    subst p.
    apply IH in H. destruct H as (preds & Hw & Hall). simpl in Hw.
    exists (mkPredicate col (lookup l) arg :: preds).
    rewrite Hw, <- app_assoc. split; [reflexivity|].
    constructor; [|assumption]. simpl.
    unfold getattr_orm in Hcol.
    destruct (existsb _ _); inversion Hcol; subst.
    unfold getattr_validated in Harg.
    destruct (PyDict.get (field_name l) validated); inversion Harg; subst.
    auto.
Qed.

(** A successful [filter] adds one predicate per lookup; its argument is
    the validated value of the lookup's field. *)
Lemma filter_predicates self s' :
  filter self = Ok s' ->
  exists lookups validated preds,
    collect_lookups (cls self) (QueryParams.items (request self)) []
      = Ok lookups /\
    model_validate (schema (cls self)) (filter_obj lookups)
      (filter_context lookups) = inl validated /\
    whereclause (_query s') = whereclause (_query self) ++ preds /\
    Forall2 (fun l p =>
               pred_column p = field_name l /\ pred_method p = lookup l /\
               PyDict.get (field_name l) validated = Some (pred_arg p))
      lookups preds.
Proof.
  unfold filter. intros H.
  apply bind_Ok_inv in H. destruct H as (lookups & Hc & H).
  destruct (model_validate _ _ _) as [validated|errs] eqn:Hv; [|discriminate].
  apply bind_Ok_inv in H. destruct H as (q & Hq & H).
  inversion H; subst. simpl.
  apply apply_lookups_predicates in Hq. destruct Hq as (preds & Hw & Hall).
  exists lookups, validated, preds. auto.
Qed.

(** ** Lookups on distinct fields keep their own values *)

Lemma fold_last_absent (V : Type) k (pairs : list (string * V)) : forall acc,
  ~ In k (map fst pairs) ->
  fold_left (fun acc kv => if String.eqb k (fst kv) then Some (snd kv) else acc)
    pairs acc = acc.
Proof.
  induction pairs as [|[k' v'] rest IH]; intros acc Hnot; simpl.
  - reflexivity.
  - simpl in Hnot. destruct (String.eqb_spec k k') as [->|Hne].
    + exfalso. apply Hnot. left. reflexivity.
    + apply IH. intros Hin. apply Hnot. right. exact Hin.
Qed.

Lemma fold_last_unique (V : Type) k (v : V) pairs : forall acc,
  NoDup (map fst pairs) ->
  In (k, v) pairs ->
  fold_left (fun acc kv => if String.eqb k (fst kv) then Some (snd kv) else acc)
    pairs acc = Some v.
Proof.
  induction pairs as [|[k' v'] rest IH]; intros acc Hnd Hin; simpl.
  - destruct Hin.
  - inversion Hnd as [|x l Hnotin Hnd']; subst.
    destruct Hin as [Heq|Hin].
    + inversion Heq; subst. rewrite String.eqb_refl.
      apply fold_last_absent. exact Hnotin.
    + apply IH; assumption.
Qed.

Lemma of_pairs_get_unique (V : Type) k (v : V) pairs :
  NoDup (map fst pairs) ->
  In (k, v) pairs ->
  PyDict.get k (PyDict.of_pairs pairs) = Some v.
Proof.
  intros Hnd Hin. unfold PyDict.of_pairs.
  rewrite fold_set_get with (acc := None) by reflexivity.
  apply fold_last_unique; assumption.
Qed.

Lemma validator_lines_nonempty info field v context lines :
  name_must_contain_space info field v context = ValidationError lines ->
  lines <> [].
Proof.
  unfold name_must_contain_space.
  destruct (annotation_of info) as [a|]; [|discriminate].
  destruct context as [|kv rest]; [discriminate|].
  destruct (is_membership _).
  - unfold validate_list.
    destruct (validate_items field a 0 (PyStr.split "," v)) as [xs errs].
    destruct errs as [|e errs]; [discriminate|].
    intros H; inversion H. discriminate.
  - unfold validate_plain. destruct (coerce a v); [discriminate|].
    intros H; inversion H. discriminate.
Qed.

(** After a validation without errors, a field holds [None] when the request
    did not mention it and the value its validator returned otherwise. *)
Lemma validate_fields_get fields obj context : forall vals,
  validate_fields fields obj context = (vals, []) ->
  forall name info,
    PyDict.get name fields = Some info ->
    match PyDict.get name obj with
    | None => PyDict.get name vals = Some PyNone
    | Some v =>
        exists x,
          name_must_contain_space info name v context = Validated x /\
          PyDict.get name vals = Some x
    end.
Proof.
  induction fields as [|[n i] rest IH]; intros vals Hv name info Hget;
    simpl in *; [discriminate|].
  destruct (validate_fields rest obj context) as [vals' errs'].
  destruct (PyDict.get n obj) as [v|] eqn:Hobj.
  - destruct (name_must_contain_space i n v context) as [x|msg|lines] eqn:Hval.
    + inversion Hv; subst. simpl.
      destruct (String.eqb_spec name n) as [->|Hne].
      * inversion Hget; subst. rewrite Hobj. eauto.
      * apply (IH vals' eq_refl); assumption.
    + discriminate.
    + apply validator_lines_nonempty in Hval.
      destruct lines; [congruence | discriminate].
  - inversion Hv; subst. simpl.
    destruct (String.eqb_spec name n) as [->|Hne].
    + inversion Hget; subst. rewrite Hobj. reflexivity.
    + apply (IH vals' eq_refl); assumption.
Qed.

Lemma parse_key_declared klass key v l :
  parse_key klass key v = Ok l ->
  exists info, PyDict.get (field_name l) (schema klass) = Some info.
Proof.
  unfold parse_key. intros H.
  apply bind_Ok_inv in H. destruct H as (fl & _ & H).
  unfold PyDict.mem in H.
  destruct (PyDict.get (fst fl) (schema klass)) as [info|] eqn:Hg;
    inversion H; subst. simpl. eauto.
Qed.

Lemma Forall2_strengthen (A B : Type) (R R' : A -> B -> Prop) l1 l2 :
  Forall2 R l1 l2 ->
  (forall a b, In a l1 -> R a b -> R' a b) ->
  Forall2 R' l1 l2.
Proof.
  induction 1 as [|a b l1 l2 Hab _ IH]; intros Himp; constructor.
  - apply Himp; [left; reflexivity | assumption].
  - apply IH. intros a' b' Hin. apply Himp. right. exact Hin.
Qed.

(** When the lookups of a request are on distinct fields, [filter] adds one
    predicate per lookup, built from the lookup's own value under the
    lookup's own operator. *)
Lemma filter_distinct_fields self s' lookups :
  filter self = Ok s' ->
  collect_lookups (cls self) (QueryParams.items (request self)) []
    = Ok lookups ->
  NoDup (map field_name lookups) ->
  exists preds,
    whereclause (_query s') = whereclause (_query self) ++ preds /\
    Forall2 (fun l p =>
               pred_column p = field_name l /\ pred_method p = lookup l /\
               PyDict.get (field_name l) (filter_context lookups)
                 = Some (lookup l) /\
               exists info,
                 PyDict.get (field_name l) (schema (cls self)) = Some info /\
                 name_must_contain_space info (field_name l) (value l)
                   (filter_context lookups) = Validated (pred_arg p))
      lookups preds.
Proof.
  intros Hf Hc Hnd.
  destruct (filter_predicates self Hf)
    as (lookups' & validated & preds & Hc' & Hv & Hw & Hall).
  rewrite Hc in Hc'. inversion Hc'; subst lookups'. clear Hc'.
  exists preds. split; [assumption|].
  assert (Hdecl : Forall (fun l => exists info,
                    PyDict.get (field_name l) (schema (cls self)) = Some info)
                    lookups).
  { destruct (collect_lookups_one_per_key _ _ _ Hc) as (fresh & -> & Hp).
    simpl. clear - Hp.
    induction Hp as [|kv l kvs ls Hkv _ IH]; constructor; [|assumption].
    eapply parse_key_declared; eauto. }
  assert (Hvf : validate_fields (schema (cls self)) (filter_obj lookups)
                  (filter_context lookups) = (validated, [])).
  { unfold model_validate in Hv.
    destruct (validate_fields _ _ _) as [vals errs].
    destruct errs; inversion Hv; reflexivity. }
  assert (Hown : forall l, In l lookups ->
             PyDict.get (field_name l) (filter_obj lookups) = Some (value l) /\
             PyDict.get (field_name l) (filter_context lookups)
               = Some (lookup l)).
  { intros l Hin. unfold filter_obj, filter_context. split.
    - apply of_pairs_get_unique.
      + rewrite map_map. exact Hnd.
      + apply (in_map (fun l => (field_name l, value l))). exact Hin.
    - apply of_pairs_get_unique.
      + rewrite map_map. exact Hnd.
      + apply (in_map (fun l => (field_name l, lookup l))). exact Hin. }
  rewrite Forall_forall in Hdecl.
  eapply Forall2_strengthen; [exact Hall|].
  intros l p Hin (Hcol & Hmeth & Harg).
  destruct (Hown l Hin) as (Hobj & Hctx).
  destruct (Hdecl l Hin) as (info & Hinfo).
  repeat split; try assumption.
  exists info. split; [assumption|].
  pose proof (validate_fields_get _ _ _ Hvf _ Hinfo) as Hget.
  rewrite Hobj in Hget. destruct Hget as (x & Hx & Hgx).
  congruence.
Qed.

(** * Further properties of [filter] *)

Lemma existsb_eqb_In name (l : list string) :
  existsb (String.eqb name) l = true <-> In name l.
Proof.
  rewrite existsb_exists. split.
  - intros (x & Hin & Heq). apply String.eqb_eq in Heq. subst. exact Hin.
  - intros Hin. exists name. split; [exact Hin | apply String.eqb_refl].
Qed.

Lemma getattr_orm_ok klass name :
  In name (orm_model klass) -> getattr_orm klass name = Ok name.
Proof.
  intros Hin. unfold getattr_orm.
  apply existsb_eqb_In in Hin. rewrite Hin. reflexivity.
Qed.

Lemma getattr_orm_missing klass name :
  ~ In name (orm_model klass) ->
  getattr_orm klass name = Raise (AttributeError name).
Proof.
  intros Hnot. unfold getattr_orm.
  destruct (existsb (String.eqb name) (orm_model klass)) eqn:E;
    [|reflexivity].
  apply existsb_eqb_In in E. contradiction.
Qed.

Lemma getattr_orm_inv klass name c :
  getattr_orm klass name = Ok c -> c = name /\ In name (orm_model klass).
Proof.
  unfold getattr_orm.
  destruct (existsb (String.eqb name) (orm_model klass)) eqn:E;
    intros H; inversion H; subst.
  split; [reflexivity | apply existsb_eqb_In; exact E].
Qed.

Lemma with_query_same (self : BaseFilter annotation scalar row) :
  with_query self (_query self) = self.
Proof. destruct self; reflexivity. Qed.

Lemma collect_lookups_no_keys klass items : forall acc,
  List.filter (fun kv => negb (reserved klass (fst kv))) items = [] ->
  collect_lookups klass items acc = Ok acc.
Proof.
  induction items as [|[k v] rest IH]; intros acc H; simpl in *.
  - reflexivity.
  - destruct (reserved klass k); simpl in H; [apply IH; exact H|].
    discriminate H.
Qed.

Lemma validate_fields_empty_obj fields context :
  snd (validate_fields fields [] context) = [].
Proof.
  rewrite validate_fields_errors. apply schema_errors_empty_obj.
Qed.

(** X1. A request whose keys are all reserved passes [filter] unchanged,
    whatever the schema. *)
Theorem filter_without_filter_keys self :
  filter_keys (cls self) (request self) = [] ->
  filter self = Ok self.
Proof.
  intros Hkeys. unfold filter.
  rewrite (collect_lookups_no_keys (cls self) _ [] Hkeys). simpl.
  unfold model_validate.
  pose proof (validate_fields_empty_obj (schema (cls self)) []) as Herr.
  change (filter_obj []) with (@nil (string * string)).
  change (filter_context []) with (@nil (string * string)).
  destruct (validate_fields (schema (cls self)) [] []) as [vals errs].
  simpl in Herr. subst errs. simpl.
  rewrite with_query_same. reflexivity.
Qed.

(** X2. A successful [filter] adds exactly one predicate for every key of the
    request that is not reserved. *)
Theorem filter_predicate_count self s' :
  filter self = Ok s' ->
  length (whereclause (_query s')) =
  (length (whereclause (_query self)) +
   length (filter_keys (cls self) (request self)))%nat.
Proof.
  intros Hf.
  destruct (filter_predicates self Hf)
    as (lookups & validated & preds & Hc & _ & Hw & Hall).
  destruct (collect_lookups_one_per_key _ _ _ Hc) as (fresh & -> & Hkeys).
  simpl in Hall. rewrite Hw, length_app.
  apply Forall2_length in Hall. apply Forall2_length in Hkeys.
  unfold filter_keys. lia.
Qed.

Lemma parse_key_sound klass key v l :
  parse_key klass key v = Ok l ->
  PyDict.mem (field_name l) (schema klass) = true /\
  lookup_method (lookup l) /\
  value l = v.
Proof.
  unfold parse_key. intros H.
  apply bind_Ok_inv in H. destruct H as (fl & Hfl & H).
  destruct (PyDict.mem (fst fl) (schema klass)) eqn:Hm; inversion H; subst.
  simpl. repeat split; [exact Hm|].
  destruct (PyStr.split "__" key) as [|f [|s [|x rest]]];
    try (inversion Hfl; subst; left; reflexivity).
  destruct (PyDict.get s ORM_LOOKUP_MAPPING) as [m|] eqn:Hg;
    inversion Hfl; subst.
  right. exists s. exact Hg.
Qed.

Lemma collect_lookups_sound klass items lookups :
  collect_lookups klass items [] = Ok lookups ->
  Forall (fun l => PyDict.mem (field_name l) (schema klass) = true /\
                   lookup_method (lookup l)) lookups.
Proof.
  intros Hc.
  destruct (collect_lookups_one_per_key _ _ _ Hc) as (fresh & -> & Hp).
  simpl. clear Hc. induction Hp as [|kv l kvs ls Hkv _ IH]; [constructor|].
  constructor; [|exact IH].
  apply parse_key_sound in Hkv. destruct Hkv as (Hm & Hl & _). auto.
Qed.

Lemma apply_lookups_columns klass validated lookups : forall q q',
  apply_lookups klass validated lookups q = Ok q' ->
  Forall (fun l => In (field_name l) (orm_model klass)) lookups.
Proof.
  induction lookups as [|l rest IH]; intros q q' H; simpl in H.
  - constructor.
  - apply bind_Ok_inv in H. destruct H as (col & Hcol & H).
    apply bind_Ok_inv in H. destruct H as (arg & _ & H).
    apply bind_Ok_inv in H. destruct H as (p & _ & H).
    constructor; [|eapply IH; exact H].
    apply getattr_orm_inv in Hcol. apply Hcol.
Qed.

Lemma apply_lookups_ok klass validated lookups :
  Forall (fun l => In (field_name l) (orm_model klass) /\
                   exists x,
                     PyDict.get (field_name l) validated = Some x /\
                     (is_membership (Some (lookup l)) = true ->
                      exists xs, x = PyList xs))
    lookups ->
  forall q, exists q', apply_lookups klass validated lookups q = Ok q'.
Proof.
  induction 1 as [|l rest (Hin & x & Hx & Hlist) _ IH]; intros q; simpl.
  - eauto.
  - rewrite (getattr_orm_ok klass _ Hin). simpl.
    unfold getattr_validated. rewrite Hx. simpl.
    unfold column_method. unfold is_membership in Hlist.
    destruct (orb _ _); simpl; [|apply IH].
    destruct (Hlist eq_refl) as (xs & ->). simpl. apply IH.
Qed.

Lemma apply_lookups_ok_or_argument_error klass validated lookups :
  Forall (fun l => In (field_name l) (orm_model klass) /\
                   exists x, PyDict.get (field_name l) validated = Some x)
    lookups ->
  forall q,
    (exists q', apply_lookups klass validated lookups q = Ok q') \/
    apply_lookups klass validated lookups q = Raise ArgumentError.
Proof.
  induction 1 as [|l rest (Hin & x & Hx) _ IH]; intros q; simpl.
  - eauto.
  - rewrite (getattr_orm_ok klass _ Hin). simpl.
    unfold getattr_validated. rewrite Hx. simpl.
    unfold column_method.
    destruct (orb _ _); simpl; [|apply IH].
    destruct x; simpl; auto.
Qed.

Lemma fold_last_present (V : Type) k (pairs : list (string * V)) :
  In k (map fst pairs) ->
  forall acc, exists v,
    fold_left (fun acc kv => if String.eqb k (fst kv) then Some (snd kv) else acc)
      pairs acc = Some v.
Proof.
  induction pairs as [|[k' v'] rest IH]; intros Hin acc; simpl in *.
  - destruct Hin.
  - destruct (in_dec string_dec k (map fst rest)) as [Hr|Hr].
    + apply IH. exact Hr.
    + destruct Hin as [Heq|Hin]; [|contradiction]. subst k'.
      rewrite String.eqb_refl. exists v'.
      apply fold_last_absent. exact Hr.
Qed.

Lemma of_pairs_get_present (V : Type) k (pairs : list (string * V)) :
  In k (map fst pairs) ->
  exists v, PyDict.get k (PyDict.of_pairs pairs) = Some v.
Proof.
  intros Hin. unfold PyDict.of_pairs.
  destruct (fold_last_present k pairs Hin None) as (v & Hv).
  exists v. rewrite fold_set_get with (acc := None) by reflexivity.
  exact Hv.
Qed.

Lemma of_pairs_get_absent (V : Type) k (pairs : list (string * V)) :
  ~ In k (map fst pairs) ->
  PyDict.get k (PyDict.of_pairs pairs) = None.
Proof.
  intros Hnot. unfold PyDict.of_pairs.
  rewrite fold_set_get with (acc := None) by reflexivity.
  apply fold_last_absent. exact Hnot.
Qed.

Lemma filter_obj_present lookups l :
  In l lookups ->
  exists v, PyDict.get (field_name l) (filter_obj lookups) = Some v.
Proof.
  intros Hin. unfold filter_obj. apply of_pairs_get_present.
  rewrite map_map. simpl. apply (in_map field_name). exact Hin.
Qed.

Lemma validator_value_shape info field v context x :
  name_must_contain_space info field v context = Validated x ->
  match annotation_of info with
  | None => False
  | Some a =>
      if is_membership (PyDict.get field context)
      then exists xs,
             x = PyList xs /\
             Forall2 (fun tok y => coerce a tok = inl y) (PyStr.split "," v) xs
      else exists y, x = PyScalar y /\ coerce a v = inl y
  end.
Proof.
  unfold name_must_contain_space.
  destruct (annotation_of info) as [a|]; [|discriminate].
  destruct context as [|kv rest]; [discriminate|].
  destruct (is_membership (PyDict.get field (kv :: rest))).
  - unfold validate_list.
    assert (Hitems : forall tokens i xs,
              validate_items field a i tokens = (xs, []) ->
              Forall2 (fun tok y => coerce a tok = inl y) tokens xs).
    { induction tokens as [|tok toks IH]; intros i xs Hv; simpl in Hv.
      - inversion Hv. constructor.
      - destruct (validate_items field a (S i) toks) as [ys errs] eqn:Hrec.
        destruct (coerce a tok) as [y|ety] eqn:Hc; inversion Hv; subst.
        constructor; [exact Hc | eapply IH; exact Hrec]. }
    destruct (validate_items field a 0 (PyStr.split "," v)) as [xs errs] eqn:Hv.
    destruct errs as [|e errs]; [|discriminate].
    intros H; inversion H; subst. exists xs. split; [reflexivity|].
    eapply Hitems. exact Hv.
  - unfold validate_plain. destruct (coerce a v) as [y|ety]; [|discriminate].
    intros H; inversion H; subst. eauto.
Qed.

Lemma model_validate_fields fields obj context validated :
  model_validate fields obj context = inl validated ->
  validate_fields fields obj context = (validated, []).
Proof.
  unfold model_validate.
  destruct (validate_fields fields obj context) as [vals errs].
  destruct errs; intros H; inversion H; reflexivity.
Qed.

Lemma mem_get (V : Type) k (d : PyDict.t V) :
  PyDict.mem k d = true -> exists v, PyDict.get k d = Some v.
Proof.
  unfold PyDict.mem. destruct (PyDict.get k d) as [v|]; [eauto|discriminate].
Qed.

(** X3. Every predicate [filter] adds is on a field the schema declares and the
    ORM class has, calls one of the nine comparison methods, and carries a
    validated value, never [None]. *)
Theorem filter_predicates_sound self s' :
  filter self = Ok s' ->
  exists preds,
    whereclause (_query s') = whereclause (_query self) ++ preds /\
    Forall (fun p =>
              PyDict.mem (pred_column p) (schema (cls self)) = true /\
              In (pred_column p) (orm_model (cls self)) /\
              lookup_method (pred_method p) /\
              pred_arg p <> PyNone) preds.
Proof.
  intros Hf.
  destruct (filter_predicates self Hf)
    as (lookups & validated & preds & Hc & Hv & Hw & Hall).
  exists preds. split; [exact Hw|].
  pose proof (collect_lookups_sound _ _ Hc) as Hsound.
  assert (Hcols : Forall (fun l => In (field_name l) (orm_model (cls self)))
                    lookups).
  { unfold filter in Hf. rewrite Hc in Hf. simpl in Hf. rewrite Hv in Hf.
    apply bind_Ok_inv in Hf. destruct Hf as (q & Hq & _).
    eapply apply_lookups_columns. exact Hq. }
  apply model_validate_fields in Hv.
  rewrite Forall_forall in Hsound, Hcols.
  assert (Hgoal : Forall2 (fun l p =>
            PyDict.mem (pred_column p) (schema (cls self)) = true /\
            In (pred_column p) (orm_model (cls self)) /\
            lookup_method (pred_method p) /\
            pred_arg p <> PyNone) lookups preds).
  { eapply Forall2_strengthen; [exact Hall|].
    intros l p Hin (Hcol & Hmeth & Harg).
    destruct (Hsound l Hin) as (Hm & Hl).
    rewrite Hcol, Hmeth. repeat split; auto.
    destruct (mem_get _ _ Hm) as (info & Hinfo).
    destruct (filter_obj_present lookups l Hin) as (v & Hobj).
    pose proof (validate_fields_get _ _ _ Hv _ Hinfo) as Hget.
    rewrite Hobj in Hget. destruct Hget as (x & Hx & Hgx).
    assert (Heq : pred_arg p = x) by congruence. rewrite Heq.
    apply validator_value_shape in Hx.
    destruct (annotation_of info); [|contradiction].
    destruct (is_membership _).
    - destruct Hx as (xs & -> & _). discriminate.
    - destruct Hx as (y & -> & _). discriminate. }
  clear - Hgoal.
  induction Hgoal; constructor; assumption.
Qed.

(** With the lookups on distinct fields, the validated value of a lookup's
    field is the one validated under the lookup's own method: a list for
    [in_] and [not_in]. *)
Lemma lookups_own_shape klass lookups validated :
  Forall (fun l => PyDict.mem (field_name l) (schema klass) = true /\
                   lookup_method (lookup l)) lookups ->
  validate_fields (schema klass) (filter_obj lookups) (filter_context lookups)
    = (validated, []) ->
  NoDup (map field_name lookups) ->
  Forall (fun l => exists x,
            PyDict.get (field_name l) validated = Some x /\
            (is_membership (Some (lookup l)) = true ->
             exists xs, x = PyList xs)) lookups.
Proof.
  intros Hsound Hv Hnd. rewrite Forall_forall in *. intros l Hin.
  destruct (Hsound l Hin) as (Hm & _).
  destruct (mem_get _ _ Hm) as (info & Hinfo).
  assert (Hobj : PyDict.get (field_name l) (filter_obj lookups)
                 = Some (value l)).
  { unfold filter_obj. apply of_pairs_get_unique.
    - rewrite map_map. exact Hnd.
    - apply (in_map (fun l => (field_name l, value l))). exact Hin. }
  assert (Hctx : PyDict.get (field_name l) (filter_context lookups)
                 = Some (lookup l)).
  { unfold filter_context. apply of_pairs_get_unique.
    - rewrite map_map. exact Hnd.
    - apply (in_map (fun l => (field_name l, lookup l))). exact Hin. }
  pose proof (validate_fields_get _ _ _ Hv _ Hinfo) as Hget.
  rewrite Hobj in Hget. destruct Hget as (x & Hx & Hgx).
  exists x. split; [exact Hgx|].
  intros Hmem. apply validator_value_shape in Hx.
  destruct (annotation_of info); [|contradiction].
  rewrite Hctx, Hmem in Hx. destruct Hx as (xs & -> & _). eauto.
Qed.

Lemma filter_outcomes self :
  schema_mapped (cls self) ->
  (exists s', filter self = Ok s') \/
  client_error (filter self) \/
  (filter self = Raise ArgumentError /\
   exists lookups,
     collect_lookups (cls self) (QueryParams.items (request self)) []
       = Ok lookups /\
     ~ NoDup (map field_name lookups)).
Proof.
  intros Hmapped. unfold filter, client_error.
  destruct (collect_lookups (cls self) (QueryParams.items (request self)) [])
    as [lookups|e] eqn:Hc; simpl.
  - destruct (model_validate (schema (cls self)) (filter_obj lookups)
                (filter_context lookups)) as [validated|errs] eqn:Hv.
    + apply model_validate_fields in Hv.
      pose proof (collect_lookups_sound _ _ Hc) as Hsound.
      assert (Hattr : Forall (fun l =>
                In (field_name l) (orm_model (cls self)) /\
                exists x, PyDict.get (field_name l) validated = Some x)
                lookups).
      { eapply Forall_impl; [|exact Hsound].
        intros l (Hm & _). split; [apply Hmapped; exact Hm|].
        destruct (mem_get _ _ Hm) as (info & Hinfo).
        pose proof (validate_fields_get _ _ _ Hv _ Hinfo) as Hget.
        destruct (PyDict.get (field_name l) (filter_obj lookups)).
        - destruct Hget as (x & _ & Hx). eauto.
        - eauto. }
      destruct (ListDec.NoDup_dec string_dec (map field_name lookups)) as [Hnd|Hdup].
      * left.
        pose proof (lookups_own_shape _ Hsound Hv Hnd) as Hshape.
        assert (Hok : Forall (fun l =>
                  In (field_name l) (orm_model (cls self)) /\
                  exists x,
                    PyDict.get (field_name l) validated = Some x /\
                    (is_membership (Some (lookup l)) = true ->
                     exists xs, x = PyList xs)) lookups).
        { rewrite Forall_forall in *. intros l Hin.
          destruct (Hattr l Hin) as (Horm & _).
          split; [exact Horm | apply Hshape; exact Hin]. }
        destruct (apply_lookups_ok _ _ Hok (_query self)) as (q' & Hq').
        rewrite Hq'. simpl. eauto.
      * destruct (apply_lookups_ok_or_argument_error _ _ Hattr (_query self))
          as [(q' & Hq')|Hq']; rewrite Hq'; simpl.
        -- left. eauto.
        -- right. right. split; [reflexivity|]. exists lookups. auto.
    + right. left. eexists. reflexivity.
  - right. left. apply collect_lookups_error_single in Hc.
    destruct Hc as (msg & ->). eexists. reflexivity.
Qed.

(** X4. When every field of the schema is an attribute of the ORM class,
    [filter] returns, raises a request error, or raises sqlalchemy's
    [ArgumentError]; the last only for a request with two keys on the same
    field, where [in_] or [not_in] can be called on a scalar. *)
Theorem filter_raises_request_or_argument_error self :
  schema_mapped (cls self) ->
  (exists s', filter self = Ok s') \/
  client_error (filter self) \/
  (filter self = Raise ArgumentError /\
   exists lookups,
     collect_lookups (cls self) (QueryParams.items (request self)) []
       = Ok lookups /\
     ~ NoDup (map field_name lookups)).
Proof. apply filter_outcomes. Qed.

(** X5. Inside [filter] the validator never lacks its context: a field that has
    a declared type and a value in the request is validated or rejected with
    coercion errors, never with a [ValueError]. *)
Theorem filter_validator_has_context lookups name info v a :
  PyDict.get name (filter_obj lookups) = Some v ->
  annotation_of info = Some a ->
  forall msg,
    name_must_contain_space info name v (filter_context lookups)
    <> ValueError msg.
Proof.
  intros Hobj Hann msg.
  assert (Hne : filter_context lookups <> []).
  { apply filter_context_nonempty. intros ->. discriminate Hobj. }
  unfold name_must_contain_space. rewrite Hann.
  destruct (filter_context lookups) as [|kv rest]; [congruence|].
  destruct (is_membership _).
  - destruct (validate_list _ _ _); discriminate.
  - destruct (validate_plain _ _ _); discriminate.
Qed.

(** * Keys and lookups *)

Lemma append_nil_r (s : string) : (s ++ "")%string = s.
Proof. induction s; simpl; [reflexivity | rewrite IHs; reflexivity]. Qed.

Lemma append_assoc (a b c : string) :
  ((a ++ b) ++ c)%string = (a ++ b ++ c)%string.
Proof. induction a; simpl; [reflexivity | rewrite IHa; reflexivity]. Qed.

Lemma length_append (a b : string) :
  String.length (a ++ b)%string = (String.length a + String.length b)%nat.
Proof. induction a; simpl; [reflexivity | rewrite IHa; reflexivity]. Qed.

Lemma prefix_app sep : forall s,
  String.prefix sep s = true -> exists rest, s = (sep ++ rest)%string.
Proof.
  induction sep as [|c sep IH]; intros s H.
  - exists s. reflexivity.
  - destruct s as [|c' s']; simpl in H; [discriminate|].
    destruct (Ascii.ascii_dec c c') as [->|Hne]; [|discriminate].
    destruct (IH s' H) as (rest & ->). exists rest. reflexivity.
Qed.

Lemma split_from_skip sep t : forall rest acc,
  PyStr.split_from sep (String.length t) acc (t ++ rest)%string =
  PyStr.split_from sep 0 acc rest.
Proof.
  induction t as [|c t IH]; intros rest acc; simpl.
  - destruct rest; reflexivity.
  - apply IH.
Qed.

Lemma split_from_nonempty sep s : forall skip acc,
  PyStr.split_from sep skip acc s <> [].
Proof.
  induction s as [|c s IH]; intros skip acc; cbn [PyStr.split_from].
  - discriminate.
  - destruct skip; [|apply IH].
    destruct (String.prefix sep (String c s)); [discriminate | apply IH].
Qed.

Lemma join_cons sep x parts :
  parts <> [] ->
  PyStr.join sep (x :: parts) = (x ++ sep ++ PyStr.join sep parts)%string.
Proof. destruct parts; [congruence | reflexivity]. Qed.

(** [sep.join(s.split(sep)) == s] *)
Lemma join_split sep s :
  sep <> "" -> PyStr.join sep (PyStr.split sep s) = s.
Proof.
  intros Hsep. unfold PyStr.split.
  assert (H : forall n s acc,
             (String.length s <= n)%nat ->
             PyStr.join sep (PyStr.split_from sep 0 acc s)
             = (acc ++ s)%string).
  { induction n as [|n IH]; intros s0 acc Hlen.
    - destruct s0; [|simpl in Hlen; lia]. simpl.
      rewrite append_nil_r. reflexivity.
    - destruct s0 as [|c rest].
      + simpl. rewrite append_nil_r. reflexivity.
      + cbn [PyStr.split_from].
        destruct (String.prefix sep (String c rest)) eqn:Hp.
        * destruct sep as [|c0 sep']; [congruence|].
          destruct (prefix_app _ _ Hp) as (tail & Htail).
          simpl in Htail. inversion Htail; subst c rest.
          replace (String.length (String c0 sep') - 1)%nat
            with (String.length sep') by (simpl; lia).
          rewrite split_from_skip.
          rewrite join_cons by apply split_from_nonempty.
          rewrite IH.
          -- reflexivity.
          -- simpl in Hlen. rewrite length_append in Hlen. lia.
        * rewrite IH by (simpl in Hlen; lia).
          rewrite append_assoc. reflexivity. }
  apply (H (String.length s) s ""). lia.
Qed.

Lemma lookup_mapping_injective s1 s2 m :
  PyDict.get s1 ORM_LOOKUP_MAPPING = Some m ->
  PyDict.get s2 ORM_LOOKUP_MAPPING = Some m ->
  s1 = s2.
Proof.
  unfold ORM_LOOKUP_MAPPING. simpl.
  repeat match goal with
  | |- context [String.eqb s1 ?k] =>
      destruct (String.eqb_spec s1 k); [subst s1|]
  end;
  repeat match goal with
  | |- context [String.eqb s2 ?k] =>
      destruct (String.eqb_spec s2 k); [subst s2|]
  end;
  intros H1 H2; try reflexivity; try discriminate; congruence.
Qed.

Lemma lookup_mapping_not_eq s :
  PyDict.get s ORM_LOOKUP_MAPPING <> Some "__eq__".
Proof.
  unfold ORM_LOOKUP_MAPPING. simpl.
  repeat match goal with
  | |- context [String.eqb s ?k] => destruct (String.eqb s k); [discriminate|]
  end.
  discriminate.
Qed.

(** What a lookup says of the key it was parsed from. *)
Lemma parse_key_key klass key v l :
  parse_key klass key v = Ok l ->
  (lookup l = "__eq__" /\ key = field_name l) \/
  (exists suffix,
     PyDict.get suffix ORM_LOOKUP_MAPPING = Some (lookup l) /\
     key = (field_name l ++ "__" ++ suffix)%string).
Proof.
  unfold parse_key. intros H.
  apply bind_Ok_inv in H. destruct H as (fl & Hfl & H).
  destruct (PyDict.mem (fst fl) (schema klass)); inversion H; subst. simpl.
  pose proof (@join_split "__" key) as Hjoin.
  destruct (PyStr.split "__" key) as [|f [|s [|x rest]]];
    try (inversion Hfl; subst; left; split; reflexivity).
  destruct (PyDict.get s ORM_LOOKUP_MAPPING) as [m|] eqn:Hg;
    inversion Hfl; subst.
  right. exists s. split; [exact Hg|]. simpl.
  symmetry. apply Hjoin. discriminate.
Qed.

Lemma parse_key_injective klass key1 v1 l1 key2 v2 l2 :
  parse_key klass key1 v1 = Ok l1 ->
  parse_key klass key2 v2 = Ok l2 ->
  field_name l1 = field_name l2 ->
  lookup l1 = lookup l2 ->
  key1 = key2.
Proof.
  intros H1 H2 Hf Hl.
  apply parse_key_key in H1. apply parse_key_key in H2.
  destruct H1 as [(E1 & K1) | (s1 & G1 & K1)];
    destruct H2 as [(E2 & K2) | (s2 & G2 & K2)].
  - congruence.
  - exfalso. apply (lookup_mapping_not_eq s2). congruence.
  - exfalso. apply (lookup_mapping_not_eq s1). congruence.
  - rewrite Hl in G1. rewrite (lookup_mapping_injective _ _ G1 G2) in K1.
    congruence.
Qed.

(** X6. Two different keys never parse to the same field with the same method:
    a lookup determines the key it came from. *)
Theorem distinct_keys_distinct_lookups klass key1 v1 l1 key2 v2 l2 :
  parse_key klass key1 v1 = Ok l1 ->
  parse_key klass key2 v2 = Ok l2 ->
  key1 <> key2 ->
  (field_name l1, lookup l1) <> (field_name l2, lookup l2).
Proof.
  intros H1 H2 Hne Heq. inversion Heq. apply Hne.
  eapply parse_key_injective; [exact H1 | exact H2 | assumption | assumption].
Qed.

Lemma Forall2_In_right (A B : Type) (R : A -> B -> Prop) l1 l2 b :
  Forall2 R l1 l2 -> In b l2 -> exists a, In a l1 /\ R a b.
Proof.
  induction 1 as [|a0 b0 l1 l2 Hab _ IH]; intros Hin; [destruct Hin|].
  destruct Hin as [<-|Hin].
  - exists a0. split; [left; reflexivity | exact Hab].
  - destruct (IH Hin) as (a & Ha & HR). exists a. split; [right|]; assumption.
Qed.

Lemma NoDup_Forall2_map (A B C D : Type) (R : A -> B -> Prop)
  (f : A -> C) (g : B -> D) l1 l2 :
  Forall2 R l1 l2 ->
  (forall a b a' b', R a b -> R a' b' -> g b = g b' -> f a = f a') ->
  NoDup (map f l1) ->
  NoDup (map g l2).
Proof.
  intros Hall Hinj. induction Hall as [|a b l1 l2 Hab Hrest IH]; simpl;
    intros Hnd; [constructor|].
  inversion Hnd as [|x xs Hnotin Hnd']; subst.
  constructor; [|apply IH; exact Hnd'].
  intros Hin. apply Hnotin.
  apply in_map_iff in Hin. destruct Hin as (b' & Hg & Hb').
  destruct (@Forall2_In_right _ _ R l1 l2 b' Hrest Hb') as (a' & Ha' & Hab').
  apply in_map_iff. exists a'. split; [|exact Ha'].
  symmetry. apply (Hinj a b a' b' Hab Hab'). symmetry. exact Hg.
Qed.

(** X7. On a query without predicates, no two predicates of [filter] have the
    same column and the same method. *)
Theorem filter_predicates_distinct self s' :
  filter self = Ok s' ->
  whereclause (_query self) = [] ->
  NoDup (map (fun p => (pred_column p, pred_method p))
           (whereclause (_query s'))).
Proof.
  intros Hf Hempty.
  destruct (filter_predicates self Hf)
    as (lookups & validated & preds & Hc & _ & Hw & Hall).
  rewrite Hw, Hempty. simpl.
  destruct (collect_lookups_one_per_key _ _ _ Hc) as (fresh & -> & Hkeys).
  simpl in Hall.
  assert (Hnd : NoDup (map fst (List.filter
             (fun kv => negb (reserved (cls self) (fst kv)))
             (QueryParams.items (request self))))).
  { destruct (items_last_value_wins (request self)) as [Hitems _].
    revert Hitems. generalize (QueryParams.items (request self)).
    induction l as [|kv l IH]; simpl; intros Hl; [constructor|].
    inversion Hl as [|x xs Hnotin Hl']; subst.
    destruct (negb (reserved (cls self) (fst kv))); simpl; [|auto].
    constructor; [|auto].
    intros Hin. apply Hnotin. apply in_map_iff in Hin.
    destruct Hin as (kv' & Hk & Hin'). apply filter_In in Hin'.
    apply in_map_iff. exists kv'. tauto. }
  assert (Hlk : NoDup (map (fun l => (field_name l, lookup l)) fresh)).
  { eapply NoDup_Forall2_map; [exact Hkeys | | exact Hnd].
    intros kv l kv' l' Hp Hp' Heq. inversion Heq.
    eapply parse_key_injective;
      [exact Hp | exact Hp' | assumption | assumption]. }
  eapply NoDup_Forall2_map; [exact Hall | | exact Hlk].
  intros l p l' p' (Hc1 & Hm1 & _) (Hc2 & Hm2 & _) Heq.
  inversion Heq. congruence.
Qed.

(** X8. With the lookups of a request on distinct fields, every predicate
    carries the coercion of its own key's value: the list of the coerced
    tokens for [in_] and [not_in], the coerced scalar otherwise. *)
Theorem filter_compiles_own_values self s' lookups :
  filter self = Ok s' ->
  collect_lookups (cls self) (QueryParams.items (request self)) []
    = Ok lookups ->
  NoDup (map field_name lookups) ->
  exists preds,
    whereclause (_query s') = whereclause (_query self) ++ preds /\
    Forall2 (fun l p =>
               pred_column p = field_name l /\ pred_method p = lookup l /\
               exists info a,
                 PyDict.get (field_name l) (schema (cls self)) = Some info /\
                 annotation_of info = Some a /\
                 if is_membership (Some (lookup l))
                 then exists xs,
                        pred_arg p = PyList xs /\
                        Forall2 (fun tok x => coerce a tok = inl x)
                          (PyStr.split "," (value l)) xs
                 else exists x,
                        pred_arg p = PyScalar x /\
                        coerce a (value l) = inl x)
      lookups preds.
Proof.
  intros Hf Hc Hnd.
  destruct (filter_distinct_fields self Hf Hc Hnd) as (preds & Hw & Hall).
  exists preds. split; [exact Hw|].
  eapply Forall2_strengthen; [exact Hall|].
  intros l p _ (Hcol & Hmeth & Hctx & info & Hinfo & Hval).
  repeat split; try assumption.
  apply validator_value_shape in Hval. rewrite Hctx in Hval.
  destruct (annotation_of info) as [a|] eqn:Hann; [|contradiction].
  exists info, a. repeat split; assumption.
Qed.

(** X9. A value validated for [in_] or [not_in] is never the empty list: it has
    one element per comma-separated token, and there is always a token. *)
Theorem membership_list_nonempty info field v context xs :
  name_must_contain_space info field v context = Validated (PyList xs) ->
  xs <> [] /\ length xs = length (PyStr.split "," v).
Proof.
  intros H. apply validator_value_shape in H.
  destruct (annotation_of info) as [a|]; [|contradiction].
  destruct (is_membership _).
  - destruct H as (ys & Heq & Hall). inversion Heq; subst ys.
    apply Forall2_length in Hall.
    assert (Hne : PyStr.split "," v <> [])
      by (unfold PyStr.split; apply split_from_nonempty).
    split; [|symmetry; exact Hall].
    intros ->. simpl in Hall. destruct (PyStr.split "," v);
      [congruence | discriminate].
  - destruct H as (y & Heq & _). discriminate.
Qed.

(** * [search] and [order] *)

Lemma getattr_all_ok klass names :
  (forall n, In n names -> In n (orm_model klass)) ->
  getattr_all klass names = Ok names.
Proof.
  induction names as [|n rest IH]; intros Hall; simpl; [reflexivity|].
  rewrite getattr_orm_ok by (apply Hall; left; reflexivity). simpl.
  rewrite IH by (intros m Hm; apply Hall; right; exact Hm).
  reflexivity.
Qed.

Lemma getattr_all_inv klass names : forall cols,
  getattr_all klass names = Ok cols ->
  cols = names /\ forall n, In n names -> In n (orm_model klass).
Proof.
  induction names as [|n rest IH]; intros cols H; simpl in H.
  - inversion H. split; [reflexivity | intros ? []].
  - apply bind_Ok_inv in H. destruct H as (c & Hc & H).
    apply bind_Ok_inv in H. destruct H as (cs & Hcs & H).
    inversion H; subst. apply getattr_orm_inv in Hc. destruct Hc as (-> & Hin).
    destruct (IH cs Hcs) as (-> & Hall). split; [reflexivity|].
    intros m [<-|Hm]; auto.
Qed.

Lemma getattr_all_error klass names e :
  getattr_all klass names = Raise e ->
  exists n, In n names /\ ~ In n (orm_model klass) /\ e = AttributeError n.
Proof.
  induction names as [|n rest IH]; simpl; [discriminate|].
  unfold getattr_orm at 1.
  destruct (existsb (String.eqb n) (orm_model klass)) eqn:E; simpl.
  - destruct (getattr_all klass rest) as [cs|e'] eqn:Hr; simpl;
      [discriminate|].
    intros H; inversion H; subst.
    destruct (IH eq_refl) as (m & Hm & Hnot & ->).
    exists m. auto.
  - intros H; inversion H; subst. exists n. repeat split; auto.
    intros Hin. apply existsb_eqb_In in Hin. congruence.
Qed.

Lemma search_success self q :
  QueryParams.get (search_param (cls self)) (request self) = Some q ->
  q <> "" ->
  In "id" (orm_model (cls self)) ->
  (forall name, In name (search_fields (cls self)) ->
                In name (orm_model (cls self))) ->
  search self =
  Ok (with_query self
        (query_order_by
           (query_join (_query self) (mkRanking (search_fields (cls self)) q))
           (OrderText "result" desc))).
Proof.
  intros Hget Hq Hid Hcols. unfold search. rewrite Hget.
  destruct q as [|c q']; [congruence|]. simpl.
  rewrite (getattr_orm_ok (cls self) "id" Hid). simpl.
  fold (search_fields (cls self)).
  rewrite (getattr_all_ok (cls self) _ Hcols). reflexivity.
Qed.

(** X10. A non-empty search string joins one ranking over exactly the searchable
    fields of the schema, in declaration order, and orders by the ranking,
    descending, provided the ORM class has [id] and those fields. *)
Theorem search_ranks_searchable_fields self q :
  QueryParams.get (search_param (cls self)) (request self) = Some q ->
  q <> "" ->
  In "id" (orm_model (cls self)) ->
  (forall name, In name (search_fields (cls self)) ->
                In name (orm_model (cls self))) ->
  search self =
  Ok (with_query self
        (query_order_by
           (query_join (_query self) (mkRanking (search_fields (cls self)) q))
           (OrderText "result" desc))).
Proof. apply search_success. Qed.

(** X11. With a non-empty search string, [search] succeeds exactly when the ORM
    class has [id] and every searchable field; otherwise it raises
    [AttributeError], for [id] first, even when no field is searchable. *)
Theorem search_needs_orm_columns self q :
  QueryParams.get (search_param (cls self)) (request self) = Some q ->
  q <> "" ->
  ((exists s', search self = Ok s') <->
   In "id" (orm_model (cls self)) /\
   forall name, In name (search_fields (cls self)) ->
                In name (orm_model (cls self))) /\
  (~ In "id" (orm_model (cls self)) ->
   search self = Raise (AttributeError "id")) /\
  (forall e, search self = Raise e ->
             exists name, e = AttributeError name /\
                          ~ In name (orm_model (cls self))).
Proof.
  intros Hget Hq.
  assert (Hs : search self =
               (pk_field <- getattr_orm (cls self) "id" ;;
                columns <- getattr_all (cls self) (search_fields (cls self)) ;;
                Ok (with_query self
                      (query_order_by
                         (query_join (_query self) (mkRanking columns q))
                         (OrderText "result" desc))))).
  { unfold search. rewrite Hget. destruct q; [congruence | reflexivity]. }
  split; [|split].
  - split.
    + intros (s' & Hok). rewrite Hs in Hok.
      apply bind_Ok_inv in Hok. destruct Hok as (pk & Hpk & Hok).
      apply bind_Ok_inv in Hok. destruct Hok as (cols & Hcols & _).
      apply getattr_orm_inv in Hpk. apply getattr_all_inv in Hcols.
      split; [apply Hpk | apply Hcols].
    + intros (Hid & Hcols). eexists.
      apply search_success; eauto.
  - intros Hnot. rewrite Hs, (getattr_orm_missing _ _ Hnot). reflexivity.
  - intros e He. rewrite Hs in He.
    destruct (in_dec string_dec "id" (orm_model (cls self))) as [Hid|Hid].
    + rewrite (getattr_orm_ok _ _ Hid) in He. simpl in He.
      destruct (getattr_all (cls self) (search_fields (cls self)))
        as [cols|e'] eqn:Hc; simpl in He; [discriminate|].
      inversion He; subst.
      destruct (getattr_all_error _ _ Hc) as (n & _ & Hnot & ->). eauto.
    + rewrite (getattr_orm_missing _ _ Hid) in He.
      inversion He; subst. eauto.
Qed.

(** X12. A successful [order] appends one clause, on a column that the schema
    declares as orderable and the ORM class has; the rest of the state is
    unchanged. *)
Theorem order_clause_is_orderable self s' :
  order self = Ok s' ->
  exists column dir info,
    s' = with_query self
           (query_order_by (_query self) (OrderColumn column dir)) /\
    (dir, column) = ordering_of (requested_ordering self) /\
    PyDict.get column (schema (cls self)) = Some info /\
    orderable info = true /\
    In column (orm_model (cls self)).
Proof.
  intros H.
  assert (Hne : requested_ordering self <> "").
  { intros Hnil. unfold order in H. fold (requested_ordering self) in H.
    rewrite Hnil in H. discriminate. }
  rewrite (order_as_spec self Hne) in H. unfold order_spec in H.
  destruct (ordering_of (requested_ordering self)) as [dir field].
  destruct (PyDict.get field (schema (cls self))) as [info|] eqn:Hinfo;
    [|discriminate].
  destruct (orderable info) eqn:Hord; [|discriminate].
  apply bind_Ok_inv in H. destruct H as (col & Hcol & H).
  apply getattr_orm_inv in Hcol. destruct Hcol as (-> & Hin).
  inversion H; subst.
  exists field, dir, info. repeat split; assumption.
Qed.

(** * Construction, the response and the whole pipeline *)

Lemma validate_int_value_ok name lo hi n :
  (lo <= n)%Z ->
  match hi with
  | Some h => (n <= h)%Z
  | None => True
  end ->
  validate_int_value name lo hi n = inl n.
Proof.
  intros Hlo Hhi. unfold validate_int_value.
  destruct (Z.ltb_spec n lo) as [Hlt|_]; [lia|].
  destruct hi as [h|]; [|reflexivity].
  destruct (Z.ltb_spec h n) as [Hgt|_]; [lia | reflexivity].
Qed.

Lemma init_bounds klass request self :
  __init__ klass request = Ok self ->
  (0 <= page (paginator self))%Z /\
  (1 <= per_page (paginator self) <= 100)%Z.
Proof.
  intros Hinit. apply init_paginator in Hinit.
  destruct Hinit as (Hp & Hpp & _).
  apply validate_int_field_range in Hp.
  apply validate_int_field_range in Hpp.
  destruct (PyDict.get "page" (QueryParams._dict request));
    destruct (PyDict.get "per_page" (QueryParams._dict request));
    repeat match goal with H : _ /\ _ |- _ => destruct H end; lia.
Qed.

(** X13. The response of a compiler that was constructed from a request and run
    over any injected query is always built: it carries the page and the
    page size validated at construction, and the rows it is given. *)
Theorem get_response_after_full klass request self q s' rows :
  __init__ klass request = Ok self ->
  full (inject_query self q) = Ok s' ->
  get_response s' rows =
  inl (mkBasePaginator (page (paginator self)) (per_page (paginator self))
         rows).
Proof.
  intros Hinit Hfull.
  destruct (init_bounds _ _ Hinit) as (Hp & Hpp).
  apply full_paginator in Hfull. simpl in Hfull.
  unfold get_response, BasePaginator_construct. rewrite Hfull.
  rewrite (@validate_int_value_ok "page" 0%Z None) by (simpl; auto).
  rewrite (@validate_int_value_ok "per_page" 1%Z (Some 100%Z))
    by (simpl; lia).
  reflexivity.
Qed.

Lemma search_joins self s' :
  search self = Ok s' ->
  exists ranked, joins (_query s') = joins (_query self) ++ ranked.
Proof.
  unfold search. intros H.
  destruct (QueryParams.get _ _) as [sq|].
  - destruct (PyStr.truthy sq); simpl in H.
    + apply bind_Ok_inv in H. destruct H as (pk & _ & H).
      apply bind_Ok_inv in H. destruct H as (cols & _ & H).
      inversion H; subst. simpl. eauto.
    + inversion H; subst. exists []. rewrite app_nil_r. reflexivity.
  - inversion H; subst. exists []. rewrite app_nil_r. reflexivity.
Qed.

Lemma order_joins self s' :
  order self = Ok s' -> joins (_query s') = joins (_query self).
Proof.
  unfold order. intros H.
  destruct (match QueryParams.get _ _ with Some _ => _ | None => _ end)
    as [|c rest]; [discriminate|].
  cbv zeta in H.
  destruct (PyDict.get _ (schema (cls self))) as [info|]; [|discriminate].
  destruct (negb (orderable info)); [discriminate|].
  apply bind_Ok_inv in H. destruct H as (col & _ & H).
  inversion H; subst. reflexivity.
Qed.

(** X14. [full] extends an injected query: its predicates, joins and ordering
    clauses stay in front of what the stages add; its offset and limit are
    replaced by those of the pagination state. *)
Theorem full_extends_injected_query self q s' :
  full (inject_query self q) = Ok s' ->
  exists preds ranked_joins ranked column dir,
    whereclause (_query s') = whereclause q ++ preds /\
    length preds = length (filter_keys (cls self) (request self)) /\
    joins (_query s') = joins q ++ ranked_joins /\
    order_by_clauses (_query s') =
      order_by_clauses q ++ ranked ++ [OrderColumn column dir] /\
    offset_clause (_query s') =
      Some (page (paginator self) * per_page (paginator self))%Z /\
    limit_clause (_query s') = Some (per_page (paginator self)).
Proof.
  intros H. apply full_inv in H.
  destruct H as (s1 & s2 & s3 & H1 & H2 & H3 & ->).
  destruct (filter_predicates _ H1)
    as (lookups & validated & preds & Hc & _ & Hw & Hall).
  destruct (collect_lookups_one_per_key _ _ _ Hc) as (fresh & -> & Hkeys).
  apply Forall2_length in Hall. apply Forall2_length in Hkeys.
  pose proof (filter_frame _ H1) as (_ & _ & P1 & J1 & O1).
  pose proof (search_frame s1 H2) as (_ & _ & P2 & W2 & ranked & O2 & _).
  pose proof (search_joins s1 H2) as (rj & J2).
  pose proof (order_frame s2 H3) as (_ & _ & P3 & W3 & column & dir & O3).
  pose proof (order_joins s2 H3) as J3.
  simpl in *.
  exists preds, rj, ranked, column, dir. repeat split.
  - congruence.
  - unfold filter_keys. simpl in *. lia.
  - congruence.
  - rewrite O3, O2, O1, app_assoc. reflexivity.
  - congruence.
  - congruence.
Qed.

Lemma validate_int_field_cases name default lo hi d :
  match PyDict.get name d with
  | None => validate_int_field name default lo hi d = inl default
  | Some raw =>
      (exists n, int_coerce raw = inl n /\ (lo <= n)%Z /\
                 match hi with
                 | Some h => (n <= h)%Z
                 | None => True
                 end /\
                 validate_int_field name default lo hi d = inl n) \/
      ((forall n, int_coerce raw = inl n ->
                  ~ ((lo <= n)%Z /\
                     match hi with
                     | Some h => (n <= h)%Z
                     | None => True
                     end)) /\
       exists e, validate_int_field name default lo hi d = inr e)
  end.
Proof.
  unfold validate_int_field.
  destruct (PyDict.get name d) as [raw|]; [|reflexivity].
  destruct (int_coerce raw) as [n|ety].
  - destruct (Z.ltb_spec n lo) as [Hlt|Hge].
    + right. split; [|eauto]. intros m Hm. inversion Hm; subst. lia.
    + destruct hi as [h|].
      * destruct (Z.ltb_spec h n) as [Hgt|Hle].
        -- right. split; [|eauto]. intros m Hm. inversion Hm; subst. lia.
        -- left. exists n. auto.
      * left. exists n. auto.
  - right. split; [|eauto]. intros m Hm. discriminate Hm.
Qed.

(** X15. Construction succeeds exactly when [page] and [per_page] are each absent
    or an integer within its bounds; when it fails it raises a request
    error, for any request. *)
Theorem init_succeeds_iff klass request :
  ((exists self, __init__ klass request = Ok self) <->
   match QueryParams.get "page" request with
   | None => True
   | Some raw => exists n, int_coerce raw = inl n /\ (0 <= n)%Z
   end /\
   match QueryParams.get "per_page" request with
   | None => True
   | Some raw => exists n, int_coerce raw = inl n /\ (1 <= n <= 100)%Z
   end) /\
  ((exists self, __init__ klass request = Ok self) \/
   client_error (__init__ klass request)).
Proof.
  unfold QueryParams.get, __init__, BasePaginator_model_validate, client_error.
  pose proof (validate_int_field_cases "page" 0 0 None
                (QueryParams._dict request)) as Hp.
  pose proof (validate_int_field_cases "per_page" 10 1 (Some 100%Z)
                (QueryParams._dict request)) as Hpp.
  destruct (PyDict.get "page" (QueryParams._dict request)) as [rp|];
    destruct (PyDict.get "per_page" (QueryParams._dict request)) as [rpp|];
    repeat match goal with
    | H : _ \/ _ |- _ => destruct H
    | H : _ /\ _ |- _ => destruct H
    | H : exists _, _ |- _ => destruct H
    | H : validate_int_field _ _ _ _ _ = _ |- _ => rewrite H; clear H
    end;
    (split; [split|]);
    try (intros _; eexists; reflexivity);
    try (left; eexists; reflexivity);
    try (right; eexists; reflexivity);
    try (intros (self & Hs); discriminate Hs);
    try (intros _; repeat split; eauto; fail);
    try (intros (Ha & Hb);
         repeat match goal with
         | H : exists _, _ |- _ => destruct H
         | H : _ /\ _ |- _ => destruct H
         end;
         exfalso;
         match goal with
         | Hno : forall n, int_coerce ?r = inl n -> ~ _,
           Hyes : int_coerce ?r = inl ?m |- _ =>
             apply (Hno m Hyes); repeat split; simpl; auto; lia
         end).
Qed.

Lemma require_attributes_ok fields cls_dict :
  require_attributes fields cls_dict = None <->
  forall f, In f fields -> In f cls_dict.
Proof.
  induction fields as [|f rest IH]; simpl.
  - split; [intros _ ? [] | reflexivity].
  - destruct (existsb (String.eqb f) cls_dict) eqn:E.
    + apply existsb_eqb_In in E. rewrite IH. split.
      * intros H g [<-|Hg]; auto.
      * intros H g Hg. apply H. right. exact Hg.
    + split; [discriminate|].
      intros H. assert (Hin : In f cls_dict) by (apply H; left; reflexivity).
      apply existsb_eqb_In in Hin. congruence.
Qed.

(** X16. A subclass is accepted exactly when it defines both [orm_model] and
    [schema] itself; otherwise the error names the first one missing,
    [orm_model] before [schema]. *)
Theorem init_subclass_requires_both cls_dict :
  (__init_subclass__ cls_dict = None <->
   In "orm_model" cls_dict /\ In "schema" cls_dict) /\
  (~ In "orm_model" cls_dict ->
   __init_subclass__ cls_dict
   = Some "'orm_model' class attribute is required") /\
  (In "orm_model" cls_dict -> ~ In "schema" cls_dict ->
   __init_subclass__ cls_dict = Some "'schema' class attribute is required").
Proof.
  unfold __init_subclass__. split; [|split].
  - rewrite require_attributes_ok. split.
    + intros H. split; apply H; simpl; auto.
    + intros (Ho & Hs) f [<-|[<-|[]]]; assumption.
  - intros Hnot. cbn [require_attributes].
    destruct (existsb (String.eqb "orm_model") cls_dict) eqn:E;
      [|reflexivity].
    apply existsb_eqb_In in E. contradiction.
  - intros Ho Hnot. cbn [require_attributes].
    apply existsb_eqb_In in Ho. rewrite Ho.
    destruct (existsb (String.eqb "schema") cls_dict) eqn:E; [|reflexivity].
    apply existsb_eqb_In in E. contradiction.
Qed.

Lemma in_dict_mem (V : Type) k (v : V) (d : PyDict.t V) :
  In (k, v) d -> PyDict.mem k d = true.
Proof.
  unfold PyDict.mem. induction d as [|[k' v'] d IH]; simpl; [intros []|].
  intros [Heq|Hin].
  - inversion Heq; subst. rewrite String.eqb_refl. reflexivity.
  - destruct (String.eqb k k'); [reflexivity | apply IH; exact Hin].
Qed.

Lemma search_fields_declared klass name :
  In name (search_fields klass) -> PyDict.mem name (schema klass) = true.
Proof.
  unfold search_fields. intros Hin.
  apply in_map_iff in Hin. destruct Hin as ([k info] & Hk & Hin).
  simpl in Hk. subst k. apply filter_In in Hin. destruct Hin as (Hin & _).
  eapply in_dict_mem. exact Hin.
Qed.

Lemma search_ok_or_crash self :
  schema_mapped (cls self) ->
  In "id" (orm_model (cls self)) ->
  exists s', search self = Ok s'.
Proof.
  intros Hmapped Hid.
  destruct (QueryParams.get (search_param (cls self)) (request self))
    as [q|] eqn:Hget.
  - destruct q as [|c q'] eqn:Hq.
    + exists self. unfold search. rewrite Hget. reflexivity.
    + eexists. apply search_success with (q := String c q'); auto.
      * discriminate.
      * intros name Hin. apply Hmapped, search_fields_declared, Hin.
  - exists self. unfold search. rewrite Hget. reflexivity.
Qed.

Lemma order_ok_or_client_error self :
  schema_mapped (cls self) ->
  default_ordering (cls self) <> "" ->
  (exists s', order self = Ok s') \/ client_error (order self).
Proof.
  intros Hmapped Hd.
  rewrite (order_as_spec self (requested_ordering_nonempty self Hd)).
  unfold order_spec, client_error.
  destruct (ordering_of (requested_ordering self)) as [dir field].
  destruct (PyDict.get field (schema (cls self))) as [info|] eqn:Hinfo.
  - destruct (orderable info).
    + left. rewrite getattr_orm_ok.
      * simpl. eauto.
      * apply Hmapped. unfold PyDict.mem. rewrite Hinfo. reflexivity.
    + right. eexists. reflexivity.
  - right. eexists. reflexivity.
Qed.

(** X17. With every field of the schema and [id] on the ORM class and a
    non-empty default ordering, [full] returns a compiler, raises a request
    error, or raises sqlalchemy's [ArgumentError]; the last only for a
    request with two keys on the same field. *)
Theorem full_raises_request_or_argument_error self :
  schema_mapped (cls self) ->
  In "id" (orm_model (cls self)) ->
  default_ordering (cls self) <> "" ->
  (exists s', full self = Ok s') \/
  client_error (full self) \/
  (full self = Raise ArgumentError /\
   exists lookups,
     collect_lookups (cls self) (QueryParams.items (request self)) []
       = Ok lookups /\
     ~ NoDup (map field_name lookups)).
Proof.
  intros Hmapped Hid Hd. unfold full, client_error.
  destruct (filter_outcomes self Hmapped)
    as [(s1 & H1)|[(e & H1)|(H1 & Hdup)]];
    rewrite H1; simpl; [|right; left; eauto|right; right; auto].
  pose proof (filter_frame self H1) as (C1 & _).
  assert (Hm1 : schema_mapped (cls s1)) by (rewrite C1; exact Hmapped).
  assert (Hid1 : In "id" (orm_model (cls s1))) by (rewrite C1; exact Hid).
  destruct (search_ok_or_crash s1 Hm1 Hid1) as (s2 & H2).
  rewrite H2. simpl.
  pose proof (search_frame s1 H2) as (C2 & _).
  assert (Hm2 : schema_mapped (cls s2)) by (rewrite C2; exact Hm1).
  assert (Hd2 : default_ordering (cls s2) <> "") by (rewrite C2, C1; exact Hd).
  destruct (order_ok_or_client_error s2 Hm2 Hd2) as [(s3 & H3)|(e & H3)];
    rewrite H3; simpl; [left | right; left]; eauto.
Qed.

Lemma init_accepts klass request p pp :
  match QueryParams.get "page" request with
  | None => p = 0%Z
  | Some raw => int_coerce raw = inl p /\ (0 <= p)%Z
  end ->
  match QueryParams.get "per_page" request with
  | None => pp = 10%Z
  | Some raw => int_coerce raw = inl pp /\ (1 <= pp <= 100)%Z
  end ->
  __init__ klass request =
  Ok (mkBaseFilter klass request select (mkBasePaginator p pp [])).
Proof.
  unfold QueryParams.get, __init__, BasePaginator_model_validate,
    validate_int_field.
  intros Hp Hpp.
  destruct (PyDict.get "page" (QueryParams._dict request)) as [rp|].
  - destruct Hp as (-> & Hp0).
    destruct (Z.ltb_spec p 0) as [Hlt|_]; [lia|].
    destruct (PyDict.get "per_page" (QueryParams._dict request)) as [rpp|].
    + destruct Hpp as (-> & Hlo & Hhi).
      destruct (Z.ltb_spec pp 1) as [Hlt|_]; [lia|].
      destruct (Z.ltb_spec 100 pp) as [Hgt|_]; [lia|]. reflexivity.
    + subst pp. reflexivity.
  - subst p.
    destruct (PyDict.get "per_page" (QueryParams._dict request)) as [rpp|].
    + destruct Hpp as (-> & Hlo & Hhi).
      destruct (Z.ltb_spec pp 1) as [Hlt|_]; [lia|].
      destruct (Z.ltb_spec 100 pp) as [Hgt|_]; [lia|]. reflexivity.
    + subst pp. reflexivity.
Qed.

Lemma get_response_validates (s : BaseFilter annotation scalar row) rows :
  (exists r, get_response s rows = inl r) <->
  (0 <= page (paginator s))%Z /\ (1 <= per_page (paginator s) <= 100)%Z.
Proof.
  unfold get_response, BasePaginator_construct, validate_int_value.
  destruct (Z.ltb_spec (page (paginator s)) 0);
    destruct (Z.ltb_spec (per_page (paginator s)) 1);
    destruct (Z.ltb_spec 100 (per_page (paginator s)));
    split;
    try (intros (r & Hr); discriminate Hr);
    try (intros (Ha & Hb & Hc); lia);
    try (intros _; eexists; reflexivity);
    try (intros _; lia).
Qed.

(** C7 (amended). Construction validates the pagination parameters: a
    request is accepted when [page] is absent or an integer from 0 and
    [per_page] is absent or an integer from 1 to 100, with the defaults 0
    and 10, and only then; a [page] below 0 or a [per_page] outside
    [1, 100] fails construction with a [PaginationRangeError] entry
    whatever else the request holds; no stage changes the pagination state.
    The bounds are validated a second time by [get_response], which never
    fails for a compiler that was constructed and run by [full]. *)
Theorem pagination_validated_at_construction klass request :
  (forall p pp,
     match QueryParams.get "page" request with
     | None => p = 0%Z
     | Some raw => int_coerce raw = inl p /\ (0 <= p)%Z
     end ->
     match QueryParams.get "per_page" request with
     | None => pp = 10%Z
     | Some raw => int_coerce raw = inl pp /\ (1 <= pp <= 100)%Z
     end ->
     __init__ klass request =
     Ok (mkBaseFilter klass request select (mkBasePaginator p pp []))) /\
  (forall self,
     __init__ klass request = Ok self ->
     (0 <= page (paginator self))%Z /\
     (1 <= per_page (paginator self) <= 100)%Z /\
     (QueryParams.get "page" request = None ->
      page (paginator self) = 0%Z) /\
     (QueryParams.get "per_page" request = None ->
      per_page (paginator self) = 10%Z) /\
     (forall raw, QueryParams.get "page" request = Some raw ->
                  int_coerce raw = inl (page (paginator self))) /\
     (forall raw, QueryParams.get "per_page" request = Some raw ->
                  int_coerce raw = inl (per_page (paginator self)))) /\
  (forall raw n,
     QueryParams.get "page" request = Some raw ->
     int_coerce raw = inl n -> (n < 0)%Z ->
     exists errors,
       __init__ klass request = Raise (get_exception errors) /\
       In (PaginationRangeError "page" "greater_than_equal") errors) /\
  (forall raw n,
     QueryParams.get "per_page" request = Some raw ->
     int_coerce raw = inl n -> (n < 1)%Z ->
     exists errors,
       __init__ klass request = Raise (get_exception errors) /\
       In (PaginationRangeError "per_page" "greater_than_equal") errors) /\
  (forall raw n,
     QueryParams.get "per_page" request = Some raw ->
     int_coerce raw = inl n -> (100 < n)%Z ->
     exists errors,
       __init__ klass request = Raise (get_exception errors) /\
       In (PaginationRangeError "per_page" "less_than_equal") errors) /\
  (forall s s' : BaseFilter annotation scalar row,
     (filter s = Ok s' -> paginator s' = paginator s) /\
     (search s = Ok s' -> paginator s' = paginator s) /\
     (order s = Ok s' -> paginator s' = paginator s) /\
     (full s = Ok s' -> paginator s' = paginator s) /\
     paginator (offset s) = paginator s /\
     paginator (limit s) = paginator s) /\
  (forall (s : BaseFilter annotation scalar row) rows,
     (exists r, get_response s rows = inl r) <->
     (0 <= page (paginator s))%Z /\
     (1 <= per_page (paginator s) <= 100)%Z) /\
  (forall self q s' rows,
     __init__ klass request = Ok self ->
     full (inject_query self q) = Ok s' ->
     get_response s' rows =
     inl (mkBasePaginator (page (paginator self))
            (per_page (paginator self)) rows)).
Proof.
  split; [|split; [|split; [|split; [|split; [|split; [|split]]]]]].
  - intros p pp. apply init_accepts.
  - intros self Hinit. apply init_paginator in Hinit.
    destruct Hinit as (Hp & Hpp & _).
    apply validate_int_field_range in Hp.
    apply validate_int_field_range in Hpp.
    unfold QueryParams.get.
    destruct (PyDict.get "page" (QueryParams._dict request)) as [rp|];
      destruct (PyDict.get "per_page" (QueryParams._dict request)) as [rpp|];
      repeat split; intros; try congruence; try lia;
      try (destruct Hp as (Hp & ? & ?); congruence);
      try (destruct Hpp as (Hpp & ? & ?); congruence);
      try (destruct Hp as (? & ? & ?); lia);
      try (destruct Hpp as (? & ? & ?); lia).
  - intros raw n Hget Hco Hn. unfold PaginationRangeError.
    apply init_fails_on_error. apply in_or_app. left.
    unfold validate_int_field, QueryParams.get in *. rewrite Hget, Hco.
    destruct (Z.ltb_spec n 0); [simpl; auto | lia].
  - intros raw n Hget Hco Hn. unfold PaginationRangeError.
    apply init_fails_on_error. apply in_or_app. right.
    unfold validate_int_field, QueryParams.get in *. rewrite Hget, Hco.
    destruct (Z.ltb_spec n 1); [simpl; auto | lia].
  - intros raw n Hget Hco Hn. unfold PaginationRangeError.
    apply init_fails_on_error. apply in_or_app. right.
    unfold validate_int_field, QueryParams.get in *. rewrite Hget, Hco.
    destruct (Z.ltb_spec n 1); [lia|].
    destruct (Z.ltb_spec 100 n); [simpl; auto | lia].
  - intros s s'. repeat split.
    + intros H. apply filter_frame in H. apply H.
    + intros H. apply search_frame in H. apply H.
    + intros H. apply order_frame in H. apply H.
    + apply full_paginator.
  - intros s rows. apply get_response_validates.
  - intros self q s' rows Hinit Hfull.
    destruct (init_bounds _ _ Hinit) as (Hp & Hpp).
    apply full_paginator in Hfull. simpl in Hfull.
    unfold get_response, BasePaginator_construct. rewrite Hfull.
    rewrite (@validate_int_value_ok "page" 0%Z None) by (simpl; auto).
    rewrite (@validate_int_value_ok "per_page" 1%Z (Some 100%Z))
      by (simpl; lia).
    reflexivity.
Qed.

End Engine.

(** * The properties on concrete requests *)

(** C1, as stated, fails: [eq] is not a suffix of the operator table, so
    [unknown_field__eq=1] is an operator error, not a field error. *)
Lemma unknown_field_eq_is_operator_error :
  PyDict.get "eq" ORM_LOOKUP_MAPPING = None /\
  filter demo_coerce (compiler_for PersonFilter [("unknown_field__eq", "1")])
    = Raise (UnknownLookupOperator "eq") /\
  filter demo_coerce (compiler_for PersonFilter [("unknown_field__eq", "1")])
    <> Raise (UnknownFilterField "unknown_field").
Proof.
  split; [reflexivity|]. split; [reflexivity|].
  vm_compute. discriminate.
Qed.

(** C1 (amended), on [page=2&age=3&unknown_field__gt=1&age__bogus=1]. *)
Lemma filter_unknown_field_after_operator_witness :
  filter demo_coerce
    (compiler_for PersonFilter
       [("page", "2"); ("age", "3"); ("unknown_field__gt", "1");
        ("age__bogus", "1")])
    = Raise (UnknownFilterField "unknown_field") /\
  In "gt" ["neq"; "gt"; "gte"; "lt"; "lte"; "in"; "not_in"; "regexp"] /\
  PyDict.get "eq" ORM_LOOKUP_MAPPING = None.
Proof.
  eapply filter_unknown_field_after_operator
    with (pre := [("page", "2"); ("age", "3")]) (value := "1")
         (post := [("age__bogus", "1")]) (lookup := "__gt__").
  - reflexivity.
  - constructor; [left; reflexivity|].
    constructor; [right; eexists; reflexivity | constructor].
  - reflexivity.
  - reflexivity.
  - reflexivity.
  - reflexivity.
Defined.

(** C3, on [name=bob&age__bogus=1&nofield=1]. *)
Lemma filter_unknown_lookup_before_field_witness :
  parse_key PersonFilter "age__bogus" "1"
    = Raise (UnknownLookupOperator "bogus") /\
  filter demo_coerce
    (compiler_for PersonFilter
       [("name", "bob"); ("age__bogus", "1"); ("nofield", "1")])
    = Raise (UnknownLookupOperator "bogus") /\
  full demo_coerce
    (compiler_for PersonFilter
       [("name", "bob"); ("age__bogus", "1"); ("nofield", "1")])
    = Raise (UnknownLookupOperator "bogus").
Proof.
  eapply filter_unknown_lookup_before_field
    with (self := compiler_for PersonFilter
                    [("name", "bob"); ("age__bogus", "1"); ("nofield", "1")])
         (pre := [("name", "bob")]) (post := [("nofield", "1")])
         (field := "age").
  - reflexivity.
  - constructor; [right; eexists; reflexivity | constructor].
  - reflexivity.
  - reflexivity.
  - reflexivity.
Defined.

(** The operator error does not depend on the field being declared. *)
Example unknown_lookup_on_undeclared_field :
  filter demo_coerce (compiler_for PersonFilter [("ghost__bogus", "1")])
    = Raise (UnknownLookupOperator "bogus").
Proof. reflexivity. Qed.

(** C9, on [a__b__c=1]. *)
Lemma filter_many_parts_whole_key_witness :
  (forall suffix,
     parse_key PersonFilter "a__b__c" "1"
     <> Raise (UnknownLookupOperator suffix)) /\
  (PyDict.mem "a__b__c" person_schema = true ->
   parse_key PersonFilter "a__b__c" "1"
   = Ok (mkLookupInfo "a__b__c" "__eq__" "1")) /\
  (PyDict.mem "a__b__c" person_schema = false ->
   filter demo_coerce (compiler_for PersonFilter [("a__b__c", "1")])
   = Raise (UnknownFilterField "a__b__c")).
Proof.
  eapply filter_many_parts_whole_key
    with (self := compiler_for PersonFilter [("a__b__c", "1")])
         (pre := []) (post := []).
  - reflexivity.
  - constructor.
  - reflexivity.
  - vm_compute. lia.
Defined.

Example many_parts_unknown_field :
  PyStr.split "__" "a__b__c" = ["a"; "b"; "c"] /\
  filter demo_coerce (compiler_for PersonFilter [("a__b__c", "1")])
    = Raise (UnknownFilterField "a__b__c").
Proof. split; reflexivity. Qed.

(** A schema that declares the whole key accepts it, with equality. *)
Example many_parts_declared_field :
  exists s',
    filter demo_coerce
      (compiler_for
         (mkFilterClass ["id"; "a__b__c"]
            [("a__b__c", FilterField TInt true true)] "order_by" "search" "id")
         [("a__b__c", "1")]) = Ok s' /\
    whereclause (_query s')
      = [mkPredicate "a__b__c" "__eq__" (PyScalar (VInt 1))].
Proof. eexists. split; reflexivity. Qed.

(** C2: with [age__gt=1&age__gt=2&age__lt=9] the request keeps one
    [age__gt], with the value 2, but the validated values are kept per
    field, so both predicates on [age] are built from 9. *)
Theorem repeated_field_takes_last_value :
  QueryParams.items [("age__gt", "1"); ("age__gt", "2"); ("age__lt", "9")]
    = [("age__gt", "2"); ("age__lt", "9")] /\
  exists s',
    filter demo_coerce
      (compiler_for AccountFilter
         [("age__gt", "1"); ("age__gt", "2"); ("age__lt", "9")]) = Ok s' /\
    whereclause (_query s')
      = [mkPredicate "age" "__gt__" (PyScalar (VInt 9));
         mkPredicate "age" "__lt__" (PyScalar (VInt 9))].
Proof. split; [reflexivity|]. eexists. split; reflexivity. Qed.

(** Without another key on the same field the last value of a repeated key
    is the one compiled. *)
Example repeated_key_alone :
  exists s',
    filter demo_coerce
      (compiler_for AccountFilter [("age__gt", "1"); ("age__gt", "2")])
      = Ok s' /\
    whereclause (_query s')
      = [mkPredicate "age" "__gt__" (PyScalar (VInt 2))].
Proof. eexists. split; reflexivity. Qed.

(** C4, on [age__in=1,2,3]. *)
Lemma validation_by_operator_witness :
  name_must_contain_space demo_coerce (FilterField TInt true true)
    "age" "1,2,3" [("age", "in_")]
  = Validated (PyList [VInt 1; VInt 2; VInt 3]).
Proof.
  pose proof (@validation_by_operator demo_type demo_value demo_coerce
                (FilterField TInt true true) "age" TInt "1,2,3"
                [("age", "in_")] "in" "in_" eq_refl eq_refl eq_refl) as H.
  simpl in H. destruct H as (Hok & _).
  apply Hok. vm_compute. repeat constructor.
Defined.

Example membership_compiles_to_list :
  exists s',
    filter demo_coerce (compiler_for AccountFilter [("age__in", "1,2,3")])
      = Ok s' /\
    whereclause (_query s')
      = [mkPredicate "age" "in_" (PyList [VInt 1; VInt 2; VInt 3])].
Proof. eexists. split; reflexivity. Qed.

Example membership_rejects_token :
  filter demo_coerce (compiler_for AccountFilter [("age__in", "1,2,x")])
    = Raise (get_exception [int_error [LocName "age"; LocIndex 2]]).
Proof. reflexivity. Qed.

Example scalar_compiles_to_comparison :
  exists s',
    filter demo_coerce (compiler_for AccountFilter [("age__gt", "18")])
      = Ok s' /\
    whereclause (_query s')
      = [mkPredicate "age" "__gt__" (PyScalar (VInt 18))].
Proof. eexists. split; reflexivity. Qed.

(** C5, as stated, fails: with [age__in=x,y&id=zz] two fields fail and the
    aggregate has three entries, two of them for [age]. *)
Lemma two_entries_for_one_field :
  filter demo_coerce
    (compiler_for AccountFilter [("age__in", "x,y"); ("id", "zz")])
  = Raise (get_exception
             [int_error [LocName "id"];
              int_error [LocName "age"; LocIndex 0];
              int_error [LocName "age"; LocIndex 1]]) /\
  located_at "age" (mkErrorDetails "int_parsing" [LocName "age"; LocIndex 0]) /\
  located_at "age" (mkErrorDetails "int_parsing" [LocName "age"; LocIndex 1]).
Proof. repeat split. Qed.

(** C5 (amended), on [age__in=1,2,x&id=zz]. *)
Lemma coercion_errors_batched_witness :
  filter demo_coerce
    (compiler_for AccountFilter [("age__in", "1,2,x"); ("id", "zz")])
  = Raise (get_exception
             [int_error [LocName "id"];
              int_error [LocName "age"; LocIndex 2]]).
Proof.
  pose proof (@coercion_errors_batched demo_type demo_value unit demo_coerce
                (compiler_for AccountFilter
                   [("age__in", "1,2,x"); ("id", "zz")])
                [mkLookupInfo "age" "in_" "1,2,x";
                 mkLookupInfo "id" "__eq__" "zz"]) as H.
  destruct H as (Hraise & _).
  - reflexivity.
  - vm_compute. discriminate.
  - exact Hraise.
Defined.

(** A parser error is raised alone, by the first invalid key, although a
    later key is invalid too and a value does not coerce. *)
Example parser_error_is_first_and_alone :
  filter demo_coerce
    (compiler_for AccountFilter
       [("age", "x"); ("ghost", "1"); ("age__bogus", "1")])
  = Raise (get_exception [Message "Unknown filtering field 'ghost'"]).
Proof. reflexivity. Qed.

(** C6, as stated, fails on the empty value: the specification parses
    [order_by=] to the field with the empty name, which no schema declares,
    while the code falls back to the default. *)
Lemma empty_ordering_uses_default :
  requested_ordering_spec (compiler_for AccountFilter [("order_by", "")])
    = "" /\
  order_spec (compiler_for AccountFilter [("order_by", "")]) ""
    = Raise (UnknownOrderingField "") /\
  order (compiler_for AccountFilter [("order_by", "")])
    = Ok (with_query (compiler_for AccountFilter [("order_by", "")])
            (query_order_by select (OrderColumn "id" asc))) /\
  order (compiler_for AccountFilter [("order_by", "")])
    <> order_spec (compiler_for AccountFilter [("order_by", "")])
         (requested_ordering_spec
            (compiler_for AccountFilter [("order_by", "")])).
Proof.
  repeat split. vm_compute. discriminate.
Qed.

(** C6 (amended), on [order_by=-age]. *)
Lemma order_parses_sign_and_checks_field_witness :
  order (compiler_for AccountFilter [("order_by", "-age")])
  = Ok (with_query (compiler_for AccountFilter [("order_by", "-age")])
          (query_order_by select (OrderColumn "age" desc))).
Proof.
  pose proof (@order_parses_sign_and_checks_field demo_type demo_value unit
                (compiler_for AccountFilter [("order_by", "-age")])) as H.
  destruct H as (Horder & _).
  - simpl. discriminate.
  - rewrite Horder. reflexivity.
Defined.

Example order_plus_sign_ascending :
  order (compiler_for AccountFilter [("order_by", "+age")])
  = Ok (with_query (compiler_for AccountFilter [("order_by", "+age")])
          (query_order_by select (OrderColumn "age" asc))).
Proof. reflexivity. Qed.

Example order_not_permitted :
  order (compiler_for AccountFilter [("order_by", "name")])
  = Raise (OrderingNotPermittedError "name").
Proof. reflexivity. Qed.

Example order_unknown_field :
  order (compiler_for AccountFilter [("order_by", "-height")])
  = Raise (UnknownOrderingField "height").
Proof. reflexivity. Qed.

(** C10, on a schema without [id] and a request without [order_by]. *)
Lemma default_ordering_is_resolved_witness :
  order (compiler_for PersonFilter [("age__gt", "18")])
  = Raise (UnknownOrderingField "id").
Proof.
  apply (@default_ordering_is_resolved demo_type demo_value unit
           (compiler_for PersonFilter [("age__gt", "18")])).
  - reflexivity.
  - simpl. discriminate.
  - simpl. intros info H. discriminate H.
Defined.

(** The default names a declared field that is not orderable. *)
Example default_ordering_not_permitted :
  order (compiler_for
           (mkFilterClass ["id"; "name"; "age"] account_schema
              "order_by" "search" "name")
           [])
  = Raise (OrderingNotPermittedError "name").
Proof. reflexivity. Qed.

(** C7 on concrete requests: the defaults, and [page=-1&per_page=150]
    whatever else the request holds. *)
Example pagination_defaults :
  __init__ demo_value unit parse_int PersonFilter [("age", "3")]
  = Ok (compiler_for PersonFilter [("age", "3")]).
Proof. reflexivity. Qed.

Example pagination_out_of_range :
  __init__ demo_value unit parse_int PersonFilter
    [("page", "-1"); ("ghost__bogus", "1"); ("per_page", "150")]
  = Raise (get_exception
             [PaginationRangeError "page" "greater_than_equal";
              PaginationRangeError "per_page" "less_than_equal"]).
Proof. reflexivity. Qed.

(** C8, on [name__regexp=^A.*&order_by=-age&page=1&per_page=5]. *)
Lemma full_runs_stages_in_order_witness :
  exists s',
    full demo_coerce
      (mkBaseFilter AccountFilter
         [("name__regexp", "^A.*"); ("order_by", "-age"); ("page", "1");
          ("per_page", "5")]
         select (mkBasePaginator 1 5 (@nil unit))) = Ok s' /\
    offset_clause (_query s') = Some 5%Z /\
    limit_clause (_query s') = Some 5%Z.
Proof.
  eexists. split; [reflexivity|].
  match goal with
  | |- offset_clause (_query ?s) = _ /\ _ =>
      pose proof (@full_runs_stages_in_order demo_type demo_value unit
                    demo_coerce
                    (mkBaseFilter AccountFilter
                       [("name__regexp", "^A.*"); ("order_by", "-age");
                        ("page", "1"); ("per_page", "5")]
                       select (mkBasePaginator 1 5 (@nil unit)))
                    s eq_refl) as H
  end.
  destruct H as (_ & Hoff & Hlim & _). split; assumption.
Defined.

Example full_end_to_end :
  (s <- __init__ demo_value unit parse_int AccountFilter
          [("name__regexp", "^A.*"); ("order_by", "-age"); ("page", "1");
           ("per_page", "5")] ;;
   s' <- full demo_coerce s ;;
   Ok (get_query s'))
  = Ok (mkSelect
          [mkPredicate "name" "regexp_match" (PyScalar (VStr "^A.*"))]
          [] [OrderColumn "age" desc] (Some 5%Z) (Some 5%Z)).
Proof. reflexivity. Qed.

(** The ranking clause of [search] precedes the clause of [order]. *)
Example search_then_order :
  (s' <- full demo_coerce
           (compiler_for AccountFilter
              [("search", "bob"); ("order_by", "-age")]) ;;
   Ok (order_by_clauses (get_query s'), joins (get_query s')))
  = Ok ([OrderText "result" desc; OrderColumn "age" desc],
        [mkRanking ["name"] "bob"]).
Proof. reflexivity. Qed.

(** * The further properties on concrete requests *)

Lemma account_schema_mapped : schema_mapped AccountFilter.
Proof.
  intros name. unfold PyDict.mem. simpl.
  destruct (String.eqb_spec name "id"); [subst; simpl; auto|].
  destruct (String.eqb_spec name "name"); [subst; simpl; auto|].
  destruct (String.eqb_spec name "age"); [subst; simpl; auto|].
  discriminate.
Qed.

(** [page=2&order_by=-age&search=bob] holds no filter key. *)
Lemma filter_without_filter_keys_witness :
  filter demo_coerce
    (compiler_for AccountFilter
       [("page", "2"); ("order_by", "-age"); ("search", "bob")])
  = Ok (compiler_for AccountFilter
          [("page", "2"); ("order_by", "-age"); ("search", "bob")]).
Proof.
  apply (@filter_without_filter_keys demo_type demo_value unit demo_coerce).
  reflexivity.
Defined.

(** [age__gt=1&age__gt=2&page=3&name=bob] holds two filter keys. *)
Lemma filter_predicate_count_witness :
  exists s',
    filter demo_coerce
      (compiler_for AccountFilter
         [("age__gt", "1"); ("age__gt", "2"); ("page", "3"); ("name", "bob")])
    = Ok s' /\
    length (whereclause (_query s')) = 2%nat.
Proof.
  eexists. split; [reflexivity|].
  match goal with
  | |- length (whereclause (_query ?s)) = _ =>
      exact (@filter_predicate_count demo_type demo_value unit demo_coerce
               (compiler_for AccountFilter
                  [("age__gt", "1"); ("age__gt", "2"); ("page", "3");
                   ("name", "bob")])
               s eq_refl)
  end.
Defined.

Lemma filter_predicates_sound_witness :
  exists s' preds,
    filter demo_coerce
      (compiler_for AccountFilter [("age__in", "1,2"); ("name", "bob")])
    = Ok s' /\
    whereclause (_query s') = [] ++ preds /\
    Forall (fun p =>
              PyDict.mem (pred_column p) account_schema = true /\
              In (pred_column p) ["id"; "name"; "age"] /\
              lookup_method (pred_method p) /\
              pred_arg p <> PyNone) preds.
Proof.
  eexists.
  match goal with
  | |- exists preds, filter _ ?self = Ok ?s /\ _ =>
      destruct (@filter_predicates_sound demo_type demo_value unit
                  demo_coerce self s eq_refl) as (preds & Hw & Hall)
  end.
  exists preds. split; [reflexivity|]. split; assumption.
Defined.

(** [age__in=1,2&age=3]: both keys are on [age], the value validated for
    [age] is the scalar 3, and [in_] is called on it. *)
Lemma filter_raises_request_or_argument_error_witness :
  (exists s',
     filter demo_coerce
       (compiler_for AccountFilter [("age__in", "1,2"); ("age", "3")])
     = Ok s') \/
  client_error
    (filter demo_coerce
       (compiler_for AccountFilter [("age__in", "1,2"); ("age", "3")])) \/
  (filter demo_coerce
     (compiler_for AccountFilter [("age__in", "1,2"); ("age", "3")])
   = Raise ArgumentError /\
   exists lookups,
     collect_lookups AccountFilter
       (QueryParams.items [("age__in", "1,2"); ("age", "3")]) []
       = Ok lookups /\
     ~ NoDup (map field_name lookups)).
Proof.
  apply (@filter_raises_request_or_argument_error
           demo_type demo_value unit demo_coerce
           (compiler_for AccountFilter [("age__in", "1,2"); ("age", "3")])).
  exact account_schema_mapped.
Defined.

Example membership_on_scalar_raises :
  filter demo_coerce
    (compiler_for AccountFilter [("age__in", "1,2"); ("age", "3")])
  = Raise ArgumentError /\
  full demo_coerce
    (compiler_for AccountFilter [("age__not_in", "1,2"); ("age__lt", "5")])
  = Raise ArgumentError.
Proof. split; reflexivity. Qed.

Lemma filter_validator_has_context_witness :
  name_must_contain_space demo_coerce (FilterField TInt true true)
    "age" "1,2" (filter_context [mkLookupInfo "age" "in_" "1,2"])
  <> ValueError demo_value "Context with lookups is required".
Proof.
  apply (@filter_validator_has_context demo_type demo_value demo_coerce
           [mkLookupInfo "age" "in_" "1,2"] "age"
           (FilterField TInt true true) "1,2" TInt);
    reflexivity.
Defined.

Lemma distinct_keys_distinct_lookups_witness :
  ("age", "__gt__") <> ("age", "__lt__").
Proof.
  apply (@distinct_keys_distinct_lookups demo_type AccountFilter
           "age__gt" "1" (mkLookupInfo "age" "__gt__" "1")
           "age__lt" "9" (mkLookupInfo "age" "__lt__" "9")).
  - reflexivity.
  - reflexivity.
  - discriminate.
Defined.

Lemma filter_predicates_distinct_witness :
  exists s',
    filter demo_coerce
      (compiler_for AccountFilter
         [("age__gt", "1"); ("age__lt", "9"); ("age__gt", "5")]) = Ok s' /\
    NoDup (map (fun p => (pred_column p, pred_method p))
             (whereclause (_query s'))).
Proof.
  eexists. split; [reflexivity|].
  match goal with
  | |- NoDup (map _ (whereclause (_query ?s))) =>
      exact (@filter_predicates_distinct demo_type demo_value unit demo_coerce
               (compiler_for AccountFilter
                  [("age__gt", "1"); ("age__lt", "9"); ("age__gt", "5")])
               s eq_refl eq_refl)
  end.
Defined.

Lemma filter_compiles_own_values_witness :
  exists s',
    filter demo_coerce
      (compiler_for AccountFilter [("age__in", "1,2"); ("name", "bob")])
    = Ok s' /\
    whereclause (_query s')
    = [mkPredicate "age" "in_" (PyList [VInt 1; VInt 2]);
       mkPredicate "name" "__eq__" (PyScalar (VStr "bob"))].
Proof.
  eexists. split; [reflexivity|].
  match goal with
  | |- whereclause (_query ?s) = _ =>
      destruct (@filter_compiles_own_values demo_type demo_value unit
                  demo_coerce
                  (compiler_for AccountFilter
                     [("age__in", "1,2"); ("name", "bob")])
                  s
                  [mkLookupInfo "age" "in_" "1,2";
                   mkLookupInfo "name" "__eq__" "bob"]
                  eq_refl eq_refl) as (preds & Hw & _)
  end.
  - simpl. repeat constructor; simpl; intuition discriminate.
  - reflexivity.
Defined.

Lemma membership_list_nonempty_witness :
  [VInt 1; VInt 2; VInt 3] <> [] /\
  length [VInt 1; VInt 2; VInt 3] = length (PyStr.split "," "1,2,3").
Proof.
  apply (@membership_list_nonempty demo_type demo_value demo_coerce
           (FilterField TInt true true) "age" "1,2,3" [("age", "in_")]).
  reflexivity.
Defined.

(** An empty membership value is one empty token, which [int] rejects. *)
Example empty_membership_value :
  PyStr.split "," "" = [""] /\
  filter demo_coerce (compiler_for AccountFilter [("age__in", "")])
  = Raise (get_exception [int_error [LocName "age"; LocIndex 0]]).
Proof. split; reflexivity. Qed.

Lemma search_ranks_searchable_fields_witness :
  search (compiler_for AccountFilter [("search", "bob")])
  = Ok (with_query (compiler_for AccountFilter [("search", "bob")])
          (query_order_by
             (query_join select (mkRanking ["name"] "bob"))
             (OrderText "result" desc))).
Proof.
  apply (@search_ranks_searchable_fields demo_type demo_value unit
           (compiler_for AccountFilter [("search", "bob")]) "bob").
  - reflexivity.
  - discriminate.
  - simpl. auto.
  - intros name [<-|[]]. simpl. auto.
Defined.

(** An ORM class without [id] cannot be searched, whatever is searchable. *)
Lemma search_needs_orm_columns_witness :
  search (compiler_for
            (mkFilterClass ["name"; "age"]
               [("age", FilterField TInt true false)]
               "order_by" "search" "age")
            [("search", "bob")])
  = Raise (AttributeError "id").
Proof.
  destruct (@search_needs_orm_columns demo_type demo_value unit
              (compiler_for
                 (mkFilterClass ["name"; "age"]
                    [("age", FilterField TInt true false)]
                    "order_by" "search" "age")
                 [("search", "bob")]) "bob") as (_ & Hid & _).
  - reflexivity.
  - discriminate.
  - apply Hid. simpl. intuition discriminate.
Defined.

Lemma order_clause_is_orderable_witness :
  exists s' column dir info,
    order (compiler_for AccountFilter [("order_by", "-age")]) = Ok s' /\
    s' = with_query (compiler_for AccountFilter [("order_by", "-age")])
           (query_order_by select (OrderColumn column dir)) /\
    (dir, column) = (desc, "age") /\
    PyDict.get column account_schema = Some info /\
    orderable info = true /\
    In column ["id"; "name"; "age"].
Proof.
  eexists.
  match goal with
  | |- exists column dir info, order ?self = Ok ?s /\ _ =>
      destruct (@order_clause_is_orderable demo_type demo_value unit self s
                  eq_refl) as (column & dir & info & H)
  end.
  exists column, dir, info. split; [reflexivity | exact H].
Defined.

Lemma get_response_after_full_witness :
  exists s',
    full demo_coerce
      (inject_query
         (mkBaseFilter AccountFilter
            [("page", "1"); ("per_page", "5"); ("age__gt", "3")]
            select (mkBasePaginator 1 5 (@nil unit)))
         select) = Ok s' /\
    get_response s' [tt; tt] = inl (mkBasePaginator 1 5 [tt; tt]).
Proof.
  eexists. split; [reflexivity|].
  match goal with
  | |- get_response ?s _ = _ =>
      exact (@get_response_after_full demo_type demo_value unit demo_coerce
               parse_int AccountFilter
               [("page", "1"); ("per_page", "5"); ("age__gt", "3")]
               (mkBaseFilter AccountFilter
                  [("page", "1"); ("per_page", "5"); ("age__gt", "3")]
                  select (mkBasePaginator 1 5 (@nil unit)))
               select s [tt; tt] eq_refl eq_refl)
  end.
Defined.

(** C7, as stated, fails: construction is not the only validation of the
    pagination state.  [get_response] validates it again, and raises the
    range errors for a compiler whose paginator was set out of range after
    construction. *)
Lemma pagination_validated_again_by_get_response :
  get_response
    (mkBaseFilter AccountFilter [] (@select demo_value)
       (mkBasePaginator (-1) 500 (@nil unit)))
    [tt]
  = inr [mkErrorDetails "greater_than_equal" [LocName "page"];
         mkErrorDetails "less_than_equal" [LocName "per_page"]].
Proof. reflexivity. Qed.

(** C7 (amended), on [age=3&per_page=100]: accepted, with the default page
    and the largest page size. *)
Lemma pagination_validated_at_construction_witness :
  __init__ demo_value unit parse_int PersonFilter
    [("age", "3"); ("per_page", "100")]
  = Ok (mkBaseFilter PersonFilter [("age", "3"); ("per_page", "100")]
          select (mkBasePaginator 0 100 [])).
Proof.
  destruct (@pagination_validated_at_construction
              demo_type demo_value unit demo_coerce parse_int PersonFilter
              [("age", "3"); ("per_page", "100")]) as (Haccept & _).
  apply Haccept.
  - reflexivity.
  - simpl. split; [reflexivity | lia].
Defined.

Lemma full_extends_injected_query_witness :
  exists s' preds,
    full demo_coerce
      (inject_query (compiler_for AccountFilter [("age__gt", "3")])
         (mkSelect [mkPredicate "id" "__gt__" (PyScalar (VInt 0))] []
            [OrderColumn "name" asc] (Some 7%Z) (Some 7%Z))) = Ok s' /\
    whereclause (_query s')
    = [mkPredicate "id" "__gt__" (PyScalar (VInt 0))] ++ preds /\
    length preds = 1%nat /\
    offset_clause (_query s') = Some 0%Z /\
    limit_clause (_query s') = Some 10%Z.
Proof.
  eexists.
  match goal with
  | |- exists preds, full _ (inject_query ?self ?q) = Ok ?s /\ _ =>
      destruct (@full_extends_injected_query demo_type demo_value unit
                  demo_coerce self q s eq_refl)
        as (preds & rj & ranked & column & dir
            & Hw & Hlen & _ & _ & Hoff & Hlim)
  end.
  exists preds. split; [reflexivity|]. repeat split; assumption.
Defined.

Example injected_query_is_extended :
  (s' <- full demo_coerce
           (inject_query (compiler_for AccountFilter [("age__gt", "3")])
              (mkSelect [mkPredicate "id" "__gt__" (PyScalar (VInt 0))] []
                 [OrderColumn "name" asc] (Some 7%Z) (Some 7%Z))) ;;
   Ok (get_query s'))
  = Ok (mkSelect [mkPredicate "id" "__gt__" (PyScalar (VInt 0));
                  mkPredicate "age" "__gt__" (PyScalar (VInt 3))]
          [] [OrderColumn "name" asc; OrderColumn "id" asc]
          (Some 0%Z) (Some 10%Z)).
Proof. reflexivity. Qed.

Example init_subclass_examples :
  __init_subclass__ ["orm_model"; "schema"; "default_ordering"] = None /\
  __init_subclass__ ["schema"]
    = Some "'orm_model' class attribute is required" /\
  __init_subclass__ ["orm_model"; "paginator_class"]
    = Some "'schema' class attribute is required" /\
  __init_subclass__ []
    = Some "'orm_model' class attribute is required".
Proof. repeat split. Qed.

Example init_rejects_non_integer :
  __init__ demo_value unit parse_int AccountFilter [("page", "two")]
  = Raise (get_exception [int_error [LocName "page"]]).
Proof. reflexivity. Qed.

Lemma full_raises_request_or_argument_error_witness :
  (exists s',
     full demo_coerce
       (compiler_for AccountFilter [("ghost", "1"); ("order_by", "name")])
     = Ok s') \/
  client_error
    (full demo_coerce
       (compiler_for AccountFilter [("ghost", "1"); ("order_by", "name")])) \/
  (full demo_coerce
     (compiler_for AccountFilter [("ghost", "1"); ("order_by", "name")])
   = Raise ArgumentError /\
   exists lookups,
     collect_lookups AccountFilter
       (QueryParams.items [("ghost", "1"); ("order_by", "name")]) []
       = Ok lookups /\
     ~ NoDup (map field_name lookups)).
Proof.
  apply (@full_raises_request_or_argument_error
           demo_type demo_value unit demo_coerce
           (compiler_for AccountFilter [("ghost", "1"); ("order_by", "name")])).
  - exact account_schema_mapped.
  - simpl. auto.
  - discriminate.
Defined.
